(** * The chat relay of the senior-care assistant, embedded in Rocq

    The repository is an Express application.  [server.js] configures the
    middleware (security headers, CORS, rate limit, body parsers) and mounts
    under [/api/chat] the router it requires as [./api/chat], the second
    source file.  This file embeds that router: the helper
    [buildUserContext], the handler of [POST /] and the probe [GET /test];
    and the two handlers [server.js] defines itself, the health check and
    the error-handling middleware.  The statements are about request bodies
    as [express.json] delivers them, that is, values parsed from JSON.  The
    router's map [userContexts], which nothing reads or writes, and the
    configuration of the middleware packages are left out.

    Layout: [JS] holds the fragment of JavaScript the route relies on
    (values, property reads, coercions, dates); [Chat] holds the route,
    definition by definition as the source has it, and the theorems
    about it. *)

From Stdlib Require Import ZArith List String Ascii Bool Lia.
From Stdlib Require DecimalString QArith_base.
Import ListNotations.
Local Open Scope string_scope.
Local Open Scope Z_scope.

Module JS.

(** ** Values

    A request body is what [JSON.parse] builds: [null], booleans, numbers,
    strings, arrays, and objects with own data properties only.
    [VUndefined] is what reading an absent property gives.

    - A number is an integer: the embedding covers the integers that a
      double holds exactly and that JavaScript prints in plain decimal
      notation.  Fractional numbers are outside the model.
    - A string is a Rocq [string]; its [length] and characters agree with
      JavaScript's on ASCII text, and emptiness agrees on all text.
    - An object is the list of its own properties in enumeration order;
      a key is looked up at its first binding. *)
#[warnings="-register-all"]
Inductive value : Type :=
| VUndefined
| VNull
| VBool (b : bool)
| VNum (n : Z)
| VStr (s : string)
| VArr (elems : list value)
| VObj (props : list (string * value)).

(** The outcome of evaluating an expression: a result, or a thrown value. *)
Inductive completion (A : Type) : Type :=
| Normal (a : A)
| Throw (e : value).
Arguments Normal {A} a.
Arguments Throw {A} e.

Definition bind {A B} (c : completion A) (k : A -> completion B) : completion B :=
  match c with
  | Normal a => k a
  | Throw e => Throw e
  end.

Declare Scope completion_scope.
Delimit Scope completion_scope with completion.
Notation "x <- c ;; k" := (bind c (fun x => k))
  (at level 61, c at next level, right associativity) : completion_scope.

Fixpoint mapM {A B} (f : A -> completion B) (l : list A) : completion (list B) :=
  match l with
  | [] => Normal []
  | a :: r =>
      (b <- f a ;;
       bs <- mapM f r ;;
       Normal (b :: bs))%completion
  end.

(** A [TypeError] as the engine throws it.  The route reads nothing but
    [status] from a caught error, and a [TypeError] has no such property. *)
Definition TypeError (message : string) : value :=
  VObj [("message", VStr message)].

(** ** Property reads *)

Fixpoint lookup (p : string) (props : list (string * value)) : option value :=
  match props with
  | [] => None
  | (k, v) :: r => if String.eqb k p then Some v else lookup p r
  end.

(** The own property [p] of an object, [undefined] when absent. *)
Definition prop (props : list (string * value)) (p : string) : value :=
  match lookup p props with
  | Some x => x
  | None => VUndefined
  end.

Definition has_own (props : list (string * value)) (p : string) : bool :=
  match lookup p props with
  | Some _ => true
  | None => false
  end.

(** [Number::toString] on an integer. *)
Definition Number_toString (n : Z) : string :=
  DecimalString.NilZero.string_of_int (Z.to_int n).

(** The characters of a string, each as a string of length one. *)
Fixpoint chars (s : string) : list string :=
  match s with
  | EmptyString => []
  | String c r => String c EmptyString :: chars r
  end.

(** [v.p] for a property name [p] that is neither an array index nor a
    member of a built-in prototype other than [length]; every name the
    route reads ([message], [userData], [location], [medications],
    [itemLocations], [waterIntake], [waterGoal], [emergencyContacts],
    [length], [name], [time], [taken], [phone], [content], [text],
    [status]) is such a name. *)
Definition Get (v : value) (p : string) : completion value :=
  match v with
  | VUndefined => Throw (TypeError "Cannot read properties of undefined")
  | VNull => Throw (TypeError "Cannot read properties of null")
  | VObj props => Normal (prop props p)
  | VArr elems =>
      Normal (if String.eqb p "length" then VNum (Z.of_nat (List.length elems))
              else VUndefined)
  | VStr s =>
      Normal (if String.eqb p "length" then VNum (Z.of_nat (String.length s))
              else VUndefined)
  | VBool _ | VNum _ => Normal VUndefined
  end.

(** [v[i]] for a literal index [i]. *)
Definition GetIndex (v : value) (i : nat) : completion value :=
  match v with
  | VUndefined => Throw (TypeError "Cannot read properties of undefined")
  | VNull => Throw (TypeError "Cannot read properties of null")
  | VObj props => Normal (prop props (Number_toString (Z.of_nat i)))
  | VArr elems => Normal (nth i elems VUndefined)
  | VStr s =>
      Normal (match nth_error (chars s) i with
              | Some c => VStr c
              | None => VUndefined
              end)
  | VBool _ | VNum _ => Normal VUndefined
  end.

(** ** Coercions *)

(** [ToBoolean]. *)
Definition truthy (v : value) : bool :=
  match v with
  | VUndefined | VNull => false
  | VBool b => b
  | VNum n => negb (n =? 0)
  | VStr s => negb (String.eqb s "")
  | VArr _ | VObj _ => true
  end.

(** [typeof v === 'string']. *)
Definition typeof_is_string (v : value) : bool :=
  match v with
  | VStr _ => true
  | _ => false
  end.

(** [v === n] for a number literal [n]. *)
Definition strict_equals_number (v : value) (n : Z) : bool :=
  match v with
  | VNum m => m =? n
  | _ => false
  end.

(** [v === s] for a string literal [s]. *)
Definition strict_equals_string (v : value) (s : string) : bool :=
  match v with
  | VStr t => String.eqb t s
  | _ => false
  end.

(** [v !== undefined]. *)
Definition is_not_undefined (v : value) : bool :=
  match v with
  | VUndefined => false
  | _ => true
  end.

(** [ToString], as a template literal applies it to a substitution.
    - An array is converted by [Array.prototype.join]: its elements are
      converted in turn and joined with commas, [null] and [undefined]
      giving the empty string.
    - An object parsed from JSON inherits [Object.prototype.toString], which
      gives ["[object Object]"], unless it has an own property [toString]:
      that one is not callable, [valueOf] gives back the object, and the
      conversion throws. *)
Fixpoint ToString (v : value) : completion string :=
  match v with
  | VUndefined => Normal "undefined"
  | VNull => Normal "null"
  | VBool b => Normal (if b then "true" else "false")
  | VNum n => Normal (Number_toString n)
  | VStr s => Normal s
  | VArr elems =>
      let fix each (l : list value) : completion (list string) :=
        match l with
        | [] => Normal []
        | e :: r =>
            (s <- match e with
                  | VUndefined | VNull => Normal ""
                  | _ => ToString e
                  end ;;
             ss <- each r ;;
             Normal (s :: ss))%completion
        end in
      (ss <- each elems ;; Normal (String.concat "," ss))%completion
  | VObj props =>
      if has_own props "toString"
      then Throw (TypeError "Cannot convert object to primitive value")
      else Normal "[object Object]"
  end.

(** [Object.entries(v)]: own enumerable string-keyed properties. *)
Definition indexed {A} (f : A -> value) (l : list A) : list (string * value) :=
  map (fun iv => (Number_toString (Z.of_nat (fst iv)), f (snd iv)))
      (combine (seq 0 (List.length l)) l).

Definition Object_entries (v : value) : completion (list (string * value)) :=
  match v with
  | VUndefined | VNull =>
      Throw (TypeError "Cannot convert undefined or null to object")
  | VObj props => Normal props
  | VArr elems => Normal (indexed (fun e => e) elems)
  | VStr s => Normal (indexed VStr (chars s))
  | VBool _ | VNum _ => Normal []
  end.

(** [Object.keys(v)]. *)
Definition Object_keys (v : value) : completion (list string) :=
  (es <- Object_entries v ;; Normal (map fst es))%completion.

(** [v.map(f)].  Only an array has a callable [map]: on any other value the
    property is [undefined] (or, on an object with an own [map], a value
    parsed from JSON), and the call throws. *)
Definition Array_map {A} (v : value) (f : value -> completion A)
  : completion (list A) :=
  match v with
  | VArr elems => mapM f elems
  | VUndefined => Throw (TypeError "Cannot read properties of undefined")
  | VNull => Throw (TypeError "Cannot read properties of null")
  | _ => Throw (TypeError "map is not a function")
  end.

(** ** Dates

    A [Date] is given by the UTC fields of its time value. *)
Record Date : Type := {
  year : Z;
  month : Z;        (* 1 .. 12 *)
  day : Z;          (* 1 .. 31 *)
  hours : Z;        (* 0 .. 23 *)
  minutes : Z;      (* 0 .. 59 *)
  seconds : Z;      (* 0 .. 59 *)
  milliseconds : Z  (* 0 .. 999 *)
}.

Definition digit (d : Z) : ascii :=
  ascii_of_N (Z.to_N (48 + d mod 10)).

(** [w] decimal digits of [n], most significant first. *)
Fixpoint pad (w : nat) (n : Z) : string :=
  match w with
  | O => EmptyString
  | S w' => pad w' (n / 10) ++ String (digit n) EmptyString
  end.

(** [Date.prototype.toISOString]: [YYYY-MM-DDTHH:mm:ss.sssZ], the year
    written with a sign and six digits outside 0 .. 9999. *)
Definition toISOString (d : Date) : string :=
  (if (0 <=? year d) && (year d <=? 9999) then pad 4 (year d)
   else (if year d <? 0 then "-" else "+") ++ pad 6 (Z.abs (year d)))
  ++ "-" ++ pad 2 (month d) ++ "-" ++ pad 2 (day d)
  ++ "T" ++ pad 2 (hours d) ++ ":" ++ pad 2 (minutes d)
  ++ ":" ++ pad 2 (seconds d) ++ "." ++ pad 3 (milliseconds d) ++ "Z".

(** What the engine computes and this embedding keeps abstract:
    - [StringToNumber]: the integer a string denotes when read as a number,
      [None] for [NaN] (it is applied only to decide [> 0]);
    - [toLocaleDateString d]: [d.toLocaleDateString('en-US', { weekday:
      'long', year: 'numeric', month: 'long', day: 'numeric' })];
    - [toLocaleTimeString d]: [d.toLocaleTimeString('en-US', { hour:
      'numeric', minute: '2-digit', hour12: true })].
    The last two depend on the time zone and the locale data of the host. *)
Class Host : Type := {
  StringToNumber : string -> option Z;
  toLocaleDateString : Date -> string;
  toLocaleTimeString : Date -> string
}.

(** [ToNumber], [None] for [NaN].  An array or object is first converted
    to a primitive, which for values parsed from JSON is its [ToString]. *)
Definition ToNumber `{Host} (v : value) : completion (option Z) :=
  match v with
  | VUndefined => Normal None
  | VNull => Normal (Some 0)
  | VBool b => Normal (Some (if b then 1 else 0))
  | VNum n => Normal (Some n)
  | VStr s => Normal (StringToNumber s)
  | VArr _ | VObj _ =>
      (s <- ToString v ;; Normal (StringToNumber s))%completion
  end.

(** [v > n] for a number literal [n]. *)
Definition greater_than `{Host} (v : value) (n : Z) : completion bool :=
  (x <- ToNumber v ;;
   Normal (match x with Some m => n <? m | None => false end))%completion.

End JS.

Module Chat.
Import JS.

(** ** What the route acts on *)

(** The argument of [anthropic.messages.create]. *)
Record Message : Type := {
  role : string;
  content : value
}.

Record MessageCreateParams : Type := {
  model : string;
  max_tokens : Z;
  temperature : QArith_base.Q;  (* the decimal literal, as a fraction *)
  system : string;
  messages : list Message
}.

(** What [res.status(c).json(b)] sends: the status code and the object
    handed to [json], which Express serialises with [JSON.stringify]. *)
Record Response : Type := {
  statusCode : Z;
  body : value
}.

Inductive output : Type :=
| console_log (line : string)
| console_error (label : string) (error : value).

(** The effects of one request: how often the clock was read, the calls
    made to the upstream API, the console, and the responses sent. *)
Record State : Type := {
  reads : nat;
  calls : list MessageCreateParams;
  console : list output;
  sent : list Response
}.

Definition start : State :=
  {| reads := 0; calls := []; console := []; sent := [] |}.

(** The surroundings of a request: the wall clock ([clock k] is what the
    [k]-th [new Date()] gives) and the upstream API ([create k p] is how
    the call with parameters [p] settles after [k] earlier calls: with a
    message, or rejected with an error). *)
Record World : Type := {
  clock : nat -> Date;
  create : nat -> MessageCreateParams -> completion value
}.

(** Effectful code: a state transformer that may throw. *)
Definition M (A : Type) : Type := State -> completion A * State.

Definition ret {A} (a : A) : M A := fun st => (Normal a, st).

Definition bindM {A B} (m : M A) (k : A -> M B) : M B :=
  fun st =>
    match m st with
    | (Normal a, st') => k a st'
    | (Throw e, st') => (Throw e, st')
    end.

Definition lift {A} (c : completion A) : M A := fun st => (c, st).

(** [try { body } catch (error) { handler }]: what [body] did before it
    threw stays done. *)
Definition try_catch {A} (body : M A) (handler : value -> M A) : M A :=
  fun st =>
    match body st with
    | (Normal a, st') => (Normal a, st')
    | (Throw e, st') => handler e st'
    end.

Declare Scope M_scope.
Delimit Scope M_scope with M.
Notation "x <- c ;; k" := (bindM c (fun x => k))
  (at level 61, c at next level, right associativity) : M_scope.
Notation "c ;; k" := (bindM c (fun _ => k))
  (at level 61, right associativity) : M_scope.

(** One more reading of the clock. *)
Definition tick (st : State) : State :=
  {| reads := S (reads st); calls := calls st;
     console := console st; sent := sent st |}.

(** One more call to the upstream API. *)
Definition called (params : MessageCreateParams) (st : State) : State :=
  {| reads := reads st; calls := (calls st ++ [params])%list;
     console := console st; sent := sent st |}.

(** One more entry on the console. *)
Definition logged (o : output) (st : State) : State :=
  {| reads := reads st; calls := calls st;
     console := (console st ++ [o])%list; sent := sent st |}.

(** One more response sent. *)
Definition responded (r : Response) (st : State) : State :=
  {| reads := reads st; calls := calls st; console := console st;
     sent := (sent st ++ [r])%list |}.

Section Route.

Context `{Host} (w : World).

(** [new Date()]. *)
Definition new_Date : M Date :=
  fun st => (Normal (clock w (reads st)), tick st).

(** [await anthropic.messages.create(params)]. *)
Definition messages_create (params : MessageCreateParams) : M value :=
  fun st => (create w (List.length (calls st)) params, called params st).

Definition console_write (o : output) : M unit :=
  fun st => (Normal tt, logged o st).

(** [res.status(code).json(payload)]. *)
Definition res_status_json (code : Z) (payload : value) : M unit :=
  fun st => (Normal tt, responded {| statusCode := code; body := payload |} st).

(** [res.json(payload)]: the status code is Express's default, 200. *)
Definition res_json (payload : value) : M unit := res_status_json 200 payload.

(** ** [buildUserContext] *)

(** The callback of [userData.medications.map]. *)
Definition render_medication (med : value) : completion string :=
  (name <- Get med "name" ;;
   name' <- ToString name ;;
   time <- Get med "time" ;;
   time' <- ToString time ;;
   taken <- Get med "taken" ;;
   Normal (name' ++ " at " ++ time' ++ " ("
           ++ (if truthy taken then "taken" else "not taken yet")
           ++ " today)"))%completion.

(** The callback of [Object.entries(userData.itemLocations).map]. *)
Definition render_item (entry : string * value) : completion string :=
  (location <- ToString (snd entry) ;;
   Normal (fst entry ++ ": " ++ location))%completion.

(** The callback of [userData.emergencyContacts.map]. *)
Definition render_contact (contact : value) : completion string :=
  (name <- Get contact "name" ;;
   name' <- ToString name ;;
   phone <- Get contact "phone" ;;
   phone' <- ToString phone ;;
   Normal (name' ++ ": " ++ phone'))%completion.

Definition LF : string := String "010" EmptyString.

(** [context.push(line)]. *)
Definition push (context : list string) (line : string) : list string :=
  (context ++ [line])%list.

(** The first entry of [context]. *)
Definition date_line (now : Date) : string :=
  "Current date and time: " ++ toLocaleDateString now
  ++ " at " ++ toLocaleTimeString now.

(** The [if] blocks of [buildUserContext], each from the array [context]
    before it to the array after it.  A property of [userData] that the
    source reads twice is read once here: reading has no effect. *)
Definition push_location (userData : value) (context : list string)
  : completion (list string) :=
  (location <- Get userData "location" ;;
   if truthy location then
     location' <- ToString location ;;
     Normal (push context ("User's location: " ++ location'))
   else Normal context)%completion.

Definition push_medications (userData : value) (context : list string)
  : completion (list string) :=
  (medications <- Get userData "medications" ;;
   nonempty <- (if truthy medications then
                  length <- Get medications "length" ;;
                  greater_than length 0
                else Normal false) ;;
   if nonempty : bool then
     meds <- Array_map medications render_medication ;;
     Normal (push context ("Current medications: " ++ String.concat ", " meds))
   else Normal context)%completion.

Definition push_itemLocations (userData : value) (context : list string)
  : completion (list string) :=
  (itemLocations <- Get userData "itemLocations" ;;
   nonempty <- (if truthy itemLocations then
                  keys <- Object_keys itemLocations ;;
                  Normal (0 <? Z.of_nat (List.length keys))
                else Normal false) ;;
   if nonempty : bool then
     entries <- Object_entries itemLocations ;;
     items <- mapM render_item entries ;;
     Normal (push context ("Item locations: " ++ String.concat ", " items))
   else Normal context)%completion.

Definition push_waterIntake (userData : value) (context : list string)
  : completion (list string) :=
  (waterIntake <- Get userData "waterIntake" ;;
   if is_not_undefined waterIntake then
     intake <- ToString waterIntake ;;
     waterGoal <- Get userData "waterGoal" ;;
     goal <- ToString (if truthy waterGoal then waterGoal else VNum 8) ;;
     Normal (push context ("Water intake today: " ++ intake ++ " cups out of "
                          ++ goal ++ " cup daily goal"))
   else Normal context)%completion.

Definition push_emergencyContacts (userData : value) (context : list string)
  : completion (list string) :=
  (emergencyContacts <- Get userData "emergencyContacts" ;;
   nonempty <- (if truthy emergencyContacts then
                  length <- Get emergencyContacts "length" ;;
                  greater_than length 0
                else Normal false) ;;
   if nonempty : bool then
     contacts <- Array_map emergencyContacts render_contact ;;
     Normal (push context ("Emergency contacts: " ++ String.concat ", " contacts))
   else Normal context)%completion.

(** The array [context] as it stands at the [return], given the clock
    reading [now]. *)
Definition context_at_return (now : Date) (userData : value)
  : completion (list string) :=
  (let context := push [] (date_line now) in
   context <- push_location userData context ;;
   context <- push_medications userData context ;;
   context <- push_itemLocations userData context ;;
   context <- push_waterIntake userData context ;;
   context <- push_emergencyContacts userData context ;;
   Normal context)%completion.

Definition buildUserContext (userData : value) : M string :=
  (now <- new_Date ;;
   context <- lift (context_at_return now userData) ;;
   ret (String.concat LF context))%M.

(** ** [router.post('/')] *)

Definition systemPrompt (userContext : string) : string :=
  "You are a helpful AI assistant for a senior adult. You help with daily tasks like:
- Finding items around the house
- Tracking medications and health
- Answering questions about time, date, and weather
- Providing general assistance and companionship

Guidelines for responses:
- Keep responses clear, warm, and easy to understand
- Use simple language appropriate for seniors
- Be patient and encouraging
- If asked about medical advice, suggest consulting healthcare providers
- Help with practical daily tasks
- Be conversational and friendly

Current user information:
" ++ userContext ++ "

Remember to use this information to give personalized, helpful responses.".

Definition create_params (systemPrompt : string) (message : value)
  : MessageCreateParams :=
  {| model := "claude-3-sonnet-20240229";
     max_tokens := 300;
     temperature := QArith_base.Qmake 7 10;
     system := systemPrompt;
     messages := [{| role := "user"; content := message |}] |}.

(** The default of the destructuring pattern [userData = {}]: it applies
    to [undefined] only. *)
Definition userData_or_default (userData : value) : value :=
  if is_not_undefined userData then userData else VObj [].

(** The [try] block from the line after the [await] on. *)
Definition respond (message response : value) : M unit :=
  (content <- lift (Get response "content") ;;
   first <- lift (GetIndex content 0) ;;
   claudeResponse <- lift (Get first "text") ;;
   message' <- lift (ToString message) ;;
   console_write (console_log ("User: " ++ message')) ;;
   claudeResponse' <- lift (ToString claudeResponse) ;;
   console_write (console_log ("Claude: " ++ claudeResponse')) ;;
   now <- new_Date ;;
   res_json (VObj [("response", claudeResponse);
                   ("timestamp", VStr (toISOString now))]))%M.

(** The [try] block. *)
Definition try_block (req_body : value) : M unit :=
  (message <- lift (Get req_body "message") ;;
   userData <- lift (Get req_body "userData") ;;
   let userData := userData_or_default userData in
   if negb (truthy message) || negb (typeof_is_string message) then
     res_status_json 400
       (VObj [("error", VStr "Message is required and must be a string")])
   else
     userContext <- buildUserContext userData ;;
     response <- messages_create
                   (create_params (systemPrompt userContext) message) ;;
     respond message response)%M.

(** The [catch] block. *)
Definition catch_block (error : value) : M unit :=
  (console_write (console_error "Claude API Error:" error) ;;
   status <- lift (Get error "status") ;;
   if strict_equals_number status 401 then
     res_status_json 500
       (VObj [("error", VStr "API authentication failed");
              ("fallback", VStr "I'm having trouble connecting right now. Please try again in a moment.")])
   else if strict_equals_number status 429 then
     res_status_json 429
       (VObj [("error", VStr "Rate limit exceeded");
              ("fallback", VStr "I'm getting too many requests right now. Please wait a moment and try again.")])
   else
     res_status_json 500
       (VObj [("error", VStr "Failed to get response");
              ("fallback", VStr "I'm having trouble understanding right now. Could you try asking again?")]))%M.

Definition router_post (req_body : value) : M unit :=
  try_catch (try_block req_body) catch_block.

End Route.

(** ** Notions the statements use *)

(** [s.split('\n')]: the lines of a string. *)
Fixpoint split_lines (s : string) : list string :=
  match s with
  | EmptyString => [EmptyString]
  | String c r =>
      if Ascii.eqb c "010" then EmptyString :: split_lines r
      else match split_lines r with
           | x :: xs => String c x :: xs
           | [] => [String c EmptyString]
           end
  end.

(** A string without line feed. *)
Fixpoint no_LF (s : string) : bool :=
  match s with
  | EmptyString => true
  | String c r => negb (Ascii.eqb c "010") && no_LF r
  end.

(** The five optional fields of [userData], in the order of the source. *)
Inductive optional_field : Type :=
| Location
| Medications
| ItemLocations
| WaterIntake
| EmergencyContacts.

Definition optional_fields : list optional_field :=
  [Location; Medications; ItemLocations; WaterIntake; EmergencyContacts].

Definition key (f : optional_field) : string :=
  match f with
  | Location => "location"
  | Medications => "medications"
  | ItemLocations => "itemLocations"
  | WaterIntake => "waterIntake"
  | EmergencyContacts => "emergencyContacts"
  end.

(** How the line of a field starts. *)
Definition label (f : optional_field) : string :=
  match f with
  | Location => "User's location: "
  | Medications => "Current medications: "
  | ItemLocations => "Item locations: "
  | WaterIntake => "Water intake today: "
  | EmergencyContacts => "Emergency contacts: "
  end.

(** A field that is present and not empty: a non-empty text, a non-empty
    sequence, a non-empty mapping; the water intake when it is present. *)
Definition populated (props : list (string * value)) (f : optional_field) : bool :=
  match f, prop props (key f) with
  | Location, VStr s => negb (String.eqb s "")
  | Medications, VArr (_ :: _) => true
  | ItemLocations, VObj (_ :: _) => true
  | WaterIntake, v => is_not_undefined v
  | EmergencyContacts, VArr (_ :: _) => true
  | _, _ => false
  end.

(** The shape of [userData] in the data model: [location] a text,
    [medications] a sequence of objects with texts [name] and [time] and a
    boolean [taken], [itemLocations] a mapping to texts, [waterIntake] and
    [waterGoal] numbers, [emergencyContacts] a sequence of objects with
    texts [name] and [phone]; every field may be absent. *)
Definition absent_or (shape : value -> bool) (v : value) : bool :=
  match v with
  | VUndefined => true
  | _ => shape v
  end.

Definition is_number (v : value) : bool :=
  match v with VNum _ => true | _ => false end.

Definition is_boolean (v : value) : bool :=
  match v with VBool _ => true | _ => false end.

Definition is_sequence (shape : value -> bool) (v : value) : bool :=
  match v with VArr elems => forallb shape elems | _ => false end.

Definition is_medication (v : value) : bool :=
  match v with
  | VObj p =>
      typeof_is_string (prop p "name") && typeof_is_string (prop p "time")
      && absent_or is_boolean (prop p "taken")
  | _ => false
  end.

Definition is_contact (v : value) : bool :=
  match v with
  | VObj p => typeof_is_string (prop p "name") && typeof_is_string (prop p "phone")
  | _ => false
  end.

Definition is_mapping (v : value) : bool :=
  match v with
  | VObj p => forallb (fun kv => typeof_is_string (snd kv)) p
  | _ => false
  end.

Definition conforms (props : list (string * value)) : bool :=
  absent_or typeof_is_string (prop props "location")
  && absent_or (is_sequence is_medication) (prop props "medications")
  && absent_or is_mapping (prop props "itemLocations")
  && absent_or is_number (prop props "waterIntake")
  && absent_or is_number (prop props "waterGoal")
  && absent_or (is_sequence is_contact) (prop props "emergencyContacts").

(** No text that [buildUserContext] renders contains a line feed. *)
Definition text_no_LF (v : value) : bool :=
  match v with VStr s => no_LF s | _ => true end.

Definition each_elem (check : value -> bool) (v : value) : bool :=
  match v with VArr elems => forallb check elems | _ => true end.

Definition medication_no_LF (v : value) : bool :=
  match v with
  | VObj p => text_no_LF (prop p "name") && text_no_LF (prop p "time")
  | _ => true
  end.

Definition contact_no_LF (v : value) : bool :=
  match v with
  | VObj p => text_no_LF (prop p "name") && text_no_LF (prop p "phone")
  | _ => true
  end.

Definition mapping_no_LF (v : value) : bool :=
  match v with
  | VObj p => forallb (fun kv => no_LF (fst kv) && text_no_LF (snd kv)) p
  | _ => true
  end.

Definition texts_no_LF (props : list (string * value)) : bool :=
  text_no_LF (prop props "location")
  && each_elem medication_no_LF (prop props "medications")
  && mapping_no_LF (prop props "itemLocations")
  && each_elem contact_no_LF (prop props "emergencyContacts").

(** A medication or contact list that is not a list and has no length to
    speak of: [undefined], [null], a boolean, a number, the empty string,
    an object without own [length]. *)
Definition lengthless (v : value) : bool :=
  match v with
  | VUndefined | VNull | VBool _ | VNum _ => true
  | VStr s => String.eqb s ""
  | VObj p => negb (has_own p "length")
  | VArr _ => false
  end.

(** The fields of a date are in range. *)
Definition valid_date (d : Date) : Prop :=
  -271821 <= year d <= 275760 /\ 1 <= month d <= 12 /\ 1 <= day d <= 31
  /\ 0 <= hours d <= 23 /\ 0 <= minutes d <= 59 /\ 0 <= seconds d <= 59
  /\ 0 <= milliseconds d <= 999.

Definition is_digit (c : ascii) : bool :=
  ((48 <=? N_of_ascii c) && (N_of_ascii c <=? 57))%N.

Definition digit_value (c : ascii) : Z := Z.of_N (N_of_ascii c) - 48.

(** The number a list of digits denotes. *)
Definition number_of (ds : list ascii) : Z :=
  fold_left (fun n c => 10 * n + digit_value c) ds 0.

(** The ISO 8601 date and time format of ECMAScript:
    [YYYY-MM-DDTHH:mm:ss.sssZ] or, with an expanded year,
    [+YYYYYY-MM-DDTHH:mm:ss.sssZ] and [-YYYYYY-MM-DDTHH:mm:ss.sssZ], all
    fields digits and month, day, hour, minute and second in range. *)
Definition is_date_time_tail (l : list ascii) : bool :=
  match l with
  | [dash1; m1; m2; dash2; d1; d2; t; h1; h2; colon1; mi1; mi2; colon2;
     s1; s2; dot; f1; f2; f3; z] =>
      forallb is_digit [m1; m2; d1; d2; h1; h2; mi1; mi2; s1; s2; f1; f2; f3]
      && Ascii.eqb dash1 "-" && Ascii.eqb dash2 "-" && Ascii.eqb t "T"
      && Ascii.eqb colon1 ":" && Ascii.eqb colon2 ":" && Ascii.eqb dot "."
      && Ascii.eqb z "Z"
      && (1 <=? number_of [m1; m2]) && (number_of [m1; m2] <=? 12)
      && (1 <=? number_of [d1; d2]) && (number_of [d1; d2] <=? 31)
      && (number_of [h1; h2] <=? 23) && (number_of [mi1; mi2] <=? 59)
      && (number_of [s1; s2] <=? 59)
  | _ => false
  end.

Definition is_ISO8601 (s : string) : bool :=
  match list_ascii_of_string s with
  | y1 :: y2 :: y3 :: y4 :: y5 :: rest =>
      if is_digit y1 then
        forallb is_digit [y2; y3; y4] && is_date_time_tail (y5 :: rest)
      else
        (Ascii.eqb y1 "+" || Ascii.eqb y1 "-")
        && match rest with
           | y6 :: y7 :: tail =>
               forallb is_digit [y2; y3; y4; y5; y6; y7] && is_date_time_tail tail
           | _ => false
           end
  | _ => false
  end.

(** ** A host, a clock and an upstream for the examples *)

(** Reads plain decimal integers; dates as a host in the United States
    prints them. *)
Definition sample_host : Host :=
  {| StringToNumber := fun s =>
       if String.eqb s "" then Some 0
       else match DecimalString.NilZero.int_of_string s with
            | Some i => Some (Z.of_int i)
            | None => None
            end;
     toLocaleDateString := fun _ => "Monday, November 2, 2026";
     toLocaleTimeString := fun _ => "7:09 PM" |}.

Definition sample_date : Date :=
  {| year := 2026; month := 11; day := 2; hours := 19; minutes := 9;
     seconds := 5; milliseconds := 42 |}.

(** An upstream that answers every call with one text block. *)
Definition sample_reply : value :=
  VObj [("content", VArr [VObj [("type", VStr "text"); ("text", VStr "Hello!")]])].

Definition answering : World :=
  {| clock := fun _ => sample_date; create := fun _ _ => Normal sample_reply |}.

(** An upstream that rejects every call with an error of the given
    [status]. *)
Definition failing (status : value) : World :=
  {| clock := fun _ => sample_date;
     create := fun _ _ => Throw (VObj [("status", status)]) |}.

Definition sample_userData : list (string * value) :=
  [("waterIntake", VNum 3);
   ("location", VStr "Kitchen");
   ("medications",
    VArr [VObj [("name", VStr "Aspirin"); ("time", VStr "8:00 AM"); ("taken", VBool true)];
          VObj [("name", VStr "B12"); ("time", VStr "9:00 PM"); ("taken", VBool false)]]);
   ("emergencyContacts", VArr [VObj [("name", VStr "Ann"); ("phone", VStr "555-0100")]])].

(** Requests. *)
Definition request (message : value) : value :=
  VObj [("message", message); ("userData", VObj sample_userData)].

Definition request_without_message : value :=
  VObj [("userData", VObj sample_userData)].

(** A location of two lines. *)
Definition two_line_location : list (string * value) :=
  [("location", VStr ("Kitchen" ++ String "010" "Bedroom"))].

(** No cup drunk yet, and a goal of zero cups. *)
Definition zero_water : value :=
  VObj [("waterGoal", VNum 0); ("waterIntake", VNum 0)].

(** Medications sent as a text, as a number, and as the empty list. *)
Definition medications_as (medications : value) : value :=
  VObj [("location", VStr "Kitchen"); ("medications", medications)].

(** ** Notions the proofs use *)

(** [line] is the line of field [f]. *)
Definition line_of (f : optional_field) (line : string) : Prop :=
  String.prefix (label f) line = true.

(** A block appends the line of its field when the field is populated, and
    nothing otherwise; the line has no line feed when the texts have none. *)
Definition appends (props : list (string * value)) (f : optional_field)
    (context : list string) (r : completion (list string)) : Prop :=
  exists piece,
    r = Normal (context ++ piece)%list
    /\ Forall2 line_of (filter (populated props) [f]) piece
    /\ (texts_no_LF props = true -> forallb no_LF piece = true).

(** A block leaves the entries before it in place. *)
Definition extends (block : value -> list string -> completion (list string))
  : Prop :=
  forall userData context context',
    block userData context = Normal context' ->
    exists extra, context' = (context ++ extra)%list.

(** An action that makes no upstream call, and one that makes at most one. *)
Definition quiet {A} (m : M A) : Prop :=
  forall st, calls (snd (m st)) = calls st.

Definition single {A} (m : M A) : Prop :=
  forall st, exists extra,
    calls (snd (m st)) = (calls st ++ extra)%list
    /\ (List.length extra <= 1)%nat.

(** ** [router.get('/test')] *)

Module Test.

(** The argument of the probe's call: it has no [system] and no
    [temperature]. *)
Record CreateParams : Type := {
  model : string;
  max_tokens : Z;
  messages : list Message
}.

(** What one request to the probe did. *)
Record Effects : Type := {
  calls : list CreateParams;
  console : list output;
  sent : list Response
}.

Definition params : CreateParams :=
  {| model := "claude-3-sonnet-20240229";
     max_tokens := 50;
     messages := [{| role := "user";
                     content := VStr "Say hello and confirm you are working." |}] |}.

(** The handler, given how the upstream call settles.  The [try] block
    awaits the call and reads [response.content[0].text] while it builds
    the payload; the [catch] block logs the error and reads its
    [message]. *)
Definition router_get (create : CreateParams -> completion value)
  : completion unit * Effects :=
  match (response <- create params ;;
         content <- Get response "content" ;;
         first <- GetIndex content 0 ;;
         Get first "text")%completion with
  | Normal text =>
      (Normal tt,
       {| calls := [params];
          console := [];
          sent := [{| statusCode := 200;
                      body := VObj [("status", VStr "success");
                                    ("message", VStr "Claude API is working correctly");
                                    ("response", text)] |}] |})
  | Throw error =>
      match Get error "message" with
      | Normal message =>
          (Normal tt,
           {| calls := [params];
              console := [console_error "Claude API Test Error:" error];
              sent := [{| statusCode := 500;
                          body := VObj [("status", VStr "error");
                                        ("message", VStr "Claude API test failed");
                                        ("error", message)] |}] |})
      | Throw e =>
          (Throw e,
           {| calls := [params];
              console := [console_error "Claude API Test Error:" error];
              sent := [] |})
      end
  end.

End Test.

(** ** [server.js]: the handlers it defines itself *)

Module Server.

(** [app.get('/api/health')], given the clock reading and what
    [process.uptime()] gives, a number of seconds. *)
Definition health (now : Date) (uptime : value) : Response :=
  {| statusCode := 200;
     body := VObj [("status", VStr "healthy");
                   ("timestamp", VStr (toISOString now));
                   ("uptime", uptime)] |}.

(** The error-handling middleware, given [process.env.NODE_ENV] (a string,
    or [undefined] when unset) and the error handed to it: what it logs,
    and what it sends. *)
Definition error_middleware (NODE_ENV error : value)
  : output * completion Response :=
  (console_error "Server Error:" error,
   (message <- (if strict_equals_string NODE_ENV "development"
                then Get error "message"
                else Normal (VStr "Something went wrong")) ;;
    Normal {| statusCode := 500;
              body := VObj [("error", VStr "Internal server error");
                            ("message", message)] |})%completion).

End Server.

(** ** Notions of the further statements *)

(** A thrown value is a [TypeError] of the engine. *)
Definition is_TypeError (e : value) : Prop :=
  exists message, e = TypeError message.

(** An error the [catch] block can read: neither [null] nor [undefined]. *)
Definition catchable (e : value) : Prop :=
  exists status, Get e "status" = Normal status.

(** A step that sends nothing and throws catchable errors only. *)
Definition mute {A} (m : M A) : Prop :=
  forall st,
    sent (snd (m st)) = sent st
    /\ forall e, fst (m st) = Throw e -> catchable e.

(** A step that either returns after sending one response with a status
    code among [codes], or throws a catchable error after sending none. *)
Definition answers_once (codes : list Z) (m : M unit) : Prop :=
  forall st,
    match m st with
    | (Normal _, st') =>
        exists r, sent st' = (sent st ++ [r])%list /\ In (statusCode r) codes
    | (Throw e, st') => sent st' = sent st /\ catchable e
    end.

(** A block adds at most one entry. *)
Definition adds_at_most_one
    (block : value -> list string -> completion (list string)) : Prop :=
  forall userData context context',
    block userData context = Normal context' ->
    exists extra,
      context' = (context ++ extra)%list /\ (List.length extra <= 1)%nat.

(** A block adds the line of its field or nothing: [kept] tells which. *)
Definition adds_line_of (f : optional_field)
    (block : value -> list string -> completion (list string)) : Prop :=
  forall userData context context',
    block userData context = Normal context' ->
    exists (kept : bool) (piece : list string),
      context' = (context ++ piece)%list
      /\ Forall2 line_of (if kept then [f] else []) piece.

(** A [userData] that is neither an object nor [null] nor [undefined]. *)
Definition not_an_object (v : value) : bool :=
  match v with
  | VBool _ | VNum _ | VStr _ | VArr _ => true
  | VUndefined | VNull | VObj _ => false
  end.

(** What the [catch] block of [POST /] sends for errors without a status
    of 401 or 429. *)
Definition generic_failure : Response :=
  {| statusCode := 500;
     body := VObj [("error", VStr "Failed to get response");
                   ("fallback",
                    VStr "I'm having trouble understanding right now. Could you try asking again?")] |}.

(** An upstream that answers every call with [response]. *)
Definition answering_with (response : value) : World :=
  {| clock := fun _ => sample_date; create := fun _ _ => Normal response |}.

(** ** The embedding at work *)

Example sample_context :
  @context_at_return sample_host sample_date (VObj sample_userData)
  = Normal
      ["Current date and time: Monday, November 2, 2026 at 7:09 PM";
       "User's location: Kitchen";
       "Current medications: Aspirin at 8:00 AM (taken today), B12 at 9:00 PM (not taken yet today)";
       "Water intake today: 3 cups out of 8 cup daily goal";
       "Emergency contacts: Ann: 555-0100"].
Proof. reflexivity. Qed.

Example sample_exchange :
  let after :=
    snd (@router_post sample_host answering
           (request (VStr "Where are my keys?")) start) in
  console after
  = [console_log "User: Where are my keys?"; console_log "Claude: Hello!"]
  /\ sent after
     = [{| statusCode := 200;
           body := VObj [("response", VStr "Hello!");
                         ("timestamp", VStr "2026-11-02T19:09:05.042Z")] |}].
Proof. split; reflexivity. Qed.

(** Item locations sent as a text are rendered character by character. *)
Example item_locations_as_text :
  @context_at_return sample_host sample_date
    (VObj [("itemLocations", VStr "ab")])
  = Normal ["Current date and time: Monday, November 2, 2026 at 7:09 PM";
            "Item locations: 0: a, 1: b"].
Proof. reflexivity. Qed.

(** A body that is [null] cannot be destructured: the [catch] block answers. *)
Example null_body :
  sent (snd (@router_post sample_host answering VNull start))
  = [{| statusCode := 500;
        body := VObj [("error", VStr "Failed to get response");
                      ("fallback",
                       VStr "I'm having trouble understanding right now. Could you try asking again?")] |}].
Proof. reflexivity. Qed.

(** Medications sent as a text: [buildUserContext] throws, the [catch]
    block answers, and the upstream API is not called. *)
Example medications_as_text_answered_500 :
  let after :=
    snd (@router_post sample_host answering
           (VObj [("message", VStr "Hello");
                  ("userData", medications_as (VStr "aspirin"))]) start) in
  calls after = []
  /\ map statusCode (sent after) = [500].
Proof. split; reflexivity. Qed.

Example expanded_year :
  toISOString {| year := -1; month := 1; day := 1; hours := 0; minutes := 0;
                 seconds := 0; milliseconds := 0 |}
  = "-000001-01-01T00:00:00.000Z".
Proof. reflexivity. Qed.

(** ** Strings and lines *)

Lemma no_LF_app (a b : string) :
  no_LF (a ++ b) = no_LF a && no_LF b.
Proof.
  induction a as [|c a IH]; simpl.
  - reflexivity.
  - rewrite IH. now rewrite andb_assoc.
Qed.

(** Takes [no_LF] of a concatenation apart. *)
Ltac split_no_LF := repeat first [rewrite no_LF_app | progress simpl].

Lemma no_LF_concat (sep : string) (l : list string) :
  no_LF sep = true -> forallb no_LF l = true ->
  no_LF (String.concat sep l) = true.
Proof.
  intros Hsep. induction l as [|x l IH]; simpl; intros Hl.
  - reflexivity.
  - apply andb_true_iff in Hl. destruct Hl as [Hx Hl].
    destruct l as [|y l].
    + exact Hx.
    + rewrite !no_LF_app, Hx, Hsep. simpl. apply IH, Hl.
Qed.

Lemma split_lines_one (s : string) :
  no_LF s = true -> split_lines s = [s].
Proof.
  induction s as [|c s IH]; simpl; intros Hs.
  - reflexivity.
  - apply andb_true_iff in Hs. destruct Hs as [Hc Hs].
    apply negb_true_iff in Hc. rewrite Hc, (IH Hs). reflexivity.
Qed.

Lemma split_lines_app (a b : string) :
  no_LF a = true ->
  split_lines (a ++ String "010" b) = a :: split_lines b.
Proof.
  induction a as [|c a IH]; simpl; intros Ha.
  - reflexivity.
  - apply andb_true_iff in Ha. destruct Ha as [Hc Ha].
    apply negb_true_iff in Hc. rewrite Hc, (IH Ha). reflexivity.
Qed.

(** Joining lines without line feed and splitting again gives them back. *)
Lemma split_lines_concat (l : list string) :
  l <> [] -> forallb no_LF l = true ->
  split_lines (String.concat LF l) = l.
Proof.
  induction l as [|x l IH]; intros Hne Hl.
  - contradiction.
  - simpl in Hl. apply andb_true_iff in Hl. destruct Hl as [Hx Hl].
    destruct l as [|y l].
    + simpl. now apply split_lines_one.
    + change (String.concat LF (x :: y :: l))
        with (x ++ String "010" (String.concat LF (y :: l))).
      rewrite (split_lines_app _ _ Hx). f_equal.
      apply IH; [discriminate | exact Hl].
Qed.

Lemma prefix_app (a b : string) : String.prefix a (a ++ b) = true.
Proof.
  induction a as [|c a IH]; simpl.
  - now destruct b.
  - destruct (ascii_dec c c) as [_|Hc]; [exact IH | now elim Hc].
Qed.

Lemma no_LF_uint (d : Decimal.uint) :
  no_LF (DecimalString.NilEmpty.string_of_uint d) = true.
Proof.
  induction d; simpl; auto.
Qed.

(** A number prints without line feed. *)
Lemma no_LF_Number_toString (n : Z) : no_LF (Number_toString n) = true.
Proof.
  unfold Number_toString, DecimalString.NilZero.string_of_int,
    DecimalString.NilZero.string_of_uint.
  destruct (Z.to_int n) as [d|d]; destruct d; simpl;
    try reflexivity; apply no_LF_uint.
Qed.

(** ** The blocks of [buildUserContext] on data of the expected shape *)

Lemma appends_nothing props f context :
  populated props f = false -> appends props f context (Normal context).
Proof.
  intros Hp. exists []. simpl. rewrite Hp, app_nil_r. repeat split; constructor.
Qed.

Lemma appends_line props f context rest :
  populated props f = true ->
  (texts_no_LF props = true -> no_LF rest = true) ->
  appends props f context (Normal (push context (label f ++ rest))).
Proof.
  intros Hp Hrest. exists [label f ++ rest]. simpl. rewrite Hp.
  repeat split.
  - constructor; [apply prefix_app | constructor].
  - intros Ht. rewrite no_LF_app, (Hrest Ht). now destruct f.
Qed.

Section Blocks.

Context `{Host}.

Lemma mapM_medications (elems : list value) :
  forallb is_medication elems = true ->
  exists meds,
    mapM render_medication elems = Normal meds
    /\ (forallb medication_no_LF elems = true -> forallb no_LF meds = true).
Proof.
  induction elems as [|m elems IH]; simpl; intros Hs.
  - exists []. split; reflexivity.
  - apply andb_true_iff in Hs. destruct Hs as [Hm Hs].
    destruct (IH Hs) as [meds [Hmeds Hno]]. rewrite Hmeds.
    destruct m as [| | | | |?|p]; try discriminate.
    unfold is_medication in Hm. unfold render_medication. simpl.
    destruct (prop p "name") as [| | | |name| |]; try discriminate.
    destruct (prop p "time") as [| | | |time| |]; try discriminate.
    simpl. eexists. split; [reflexivity|].
    intros Hl. apply andb_true_iff in Hl. destruct Hl as [Hl1 Hl2].
    apply andb_true_iff in Hl1. destruct Hl1 as [Hname Htime].
    simpl. rewrite (Hno Hl2), andb_true_r.
    split_no_LF. rewrite Hname, Htime.
    now destruct (truthy (prop p "taken")).
Qed.

Lemma mapM_contacts (elems : list value) :
  forallb is_contact elems = true ->
  exists contacts,
    mapM render_contact elems = Normal contacts
    /\ (forallb contact_no_LF elems = true -> forallb no_LF contacts = true).
Proof.
  induction elems as [|c elems IH]; simpl; intros Hs.
  - exists []. split; reflexivity.
  - apply andb_true_iff in Hs. destruct Hs as [Hc Hs].
    destruct (IH Hs) as [contacts [Hcontacts Hno]]. rewrite Hcontacts.
    destruct c as [| | | | |?|p]; try discriminate.
    unfold is_contact in Hc. unfold render_contact. simpl.
    destruct (prop p "name") as [| | | |name| |]; try discriminate.
    destruct (prop p "phone") as [| | | |phone| |]; try discriminate.
    simpl. eexists. split; [reflexivity|].
    intros Hl. apply andb_true_iff in Hl. destruct Hl as [Hl1 Hl2].
    apply andb_true_iff in Hl1. destruct Hl1 as [Hname Hphone].
    simpl. rewrite (Hno Hl2), andb_true_r.
    split_no_LF. now rewrite Hname, Hphone.
Qed.

Lemma mapM_items (entries : list (string * value)) :
  forallb (fun kv => typeof_is_string (snd kv)) entries = true ->
  exists items,
    mapM render_item entries = Normal items
    /\ (forallb (fun kv => no_LF (fst kv) && text_no_LF (snd kv)) entries = true ->
        forallb no_LF items = true).
Proof.
  induction entries as [|[item location] entries IH]; simpl; intros Hs.
  - exists []. split; reflexivity.
  - apply andb_true_iff in Hs. destruct Hs as [He Hs].
    destruct (IH Hs) as [items [Hitems Hno]]. rewrite Hitems.
    destruct location as [| | | |location| |]; try discriminate.
    unfold render_item. simpl. eexists. split; [reflexivity|].
    intros Hl. apply andb_true_iff in Hl. destruct Hl as [Hl1 Hl2].
    apply andb_true_iff in Hl1. destruct Hl1 as [Hitem Hlocation].
    simpl. rewrite (Hno Hl2), andb_true_r.
    split_no_LF. now rewrite Hitem, Hlocation.
Qed.

Lemma push_location_appends props context :
  conforms props = true ->
  appends props Location context (push_location (VObj props) context).
Proof.
  unfold conforms. rewrite !andb_true_iff. intros [[[[[Hl _] _] _] _] _].
  unfold push_location. simpl.
  destruct (prop props "location") as [| | | |s| |] eqn:E; try discriminate.
  - apply appends_nothing. unfold populated. simpl. now rewrite E.
  - simpl. destruct (String.eqb s "") eqn:Es; simpl.
    + apply appends_nothing. unfold populated. simpl. now rewrite E, Es.
    + apply (appends_line props Location).
      * unfold populated. simpl. now rewrite E, Es.
      * unfold texts_no_LF. rewrite E. simpl. rewrite !andb_true_iff.
        now intros [[[Hs _] _] _].
Qed.

Lemma push_medications_appends props context :
  conforms props = true ->
  appends props Medications context (push_medications (VObj props) context).
Proof.
  unfold conforms. rewrite !andb_true_iff. intros [[[[[_ Hm] _] _] _] _].
  unfold push_medications. simpl.
  destruct (prop props "medications") as [| | | | |elems|] eqn:E; try discriminate.
  - apply appends_nothing. unfold populated. simpl. now rewrite E.
  - simpl in Hm. destruct elems as [|m elems].
    + apply appends_nothing. unfold populated. simpl. now rewrite E.
    + destruct (mapM_medications (m :: elems) Hm) as [meds [Hmeds Hno]].
      cbn -[mapM String.concat]. rewrite Hmeds. cbn -[String.concat].
      apply (appends_line props Medications).
      * unfold populated. simpl. now rewrite E.
      * unfold texts_no_LF. rewrite E. rewrite !andb_true_iff.
        intros [[[_ Hs] _] _]. apply no_LF_concat; [reflexivity | now apply Hno].
Qed.

Lemma push_itemLocations_appends props context :
  conforms props = true ->
  appends props ItemLocations context (push_itemLocations (VObj props) context).
Proof.
  unfold conforms. rewrite !andb_true_iff. intros [[[[[_ _] Hi] _] _] _].
  unfold push_itemLocations. simpl.
  destruct (prop props "itemLocations") as [| | | | | |entries] eqn:E; try discriminate.
  - apply appends_nothing. unfold populated. simpl. now rewrite E.
  - simpl in Hi. destruct entries as [|e entries].
    + apply appends_nothing. unfold populated. simpl. now rewrite E.
    + destruct (mapM_items (e :: entries) Hi) as [items [Hitems Hno]].
      cbn -[mapM String.concat Z.of_nat]. 
      replace (0 <? Z.of_nat (S (List.length (map fst entries)))) with true
        by (symmetry; apply Z.ltb_lt; lia).
      cbn -[mapM String.concat]. rewrite Hitems. cbn -[String.concat].
      apply (appends_line props ItemLocations).
      * unfold populated. simpl. now rewrite E.
      * unfold texts_no_LF. rewrite E. rewrite !andb_true_iff.
        intros [[_ Hs] _]. apply no_LF_concat; [reflexivity | now apply Hno].
Qed.

Lemma push_waterIntake_appends props context :
  conforms props = true ->
  appends props WaterIntake context (push_waterIntake (VObj props) context).
Proof.
  unfold conforms. rewrite !andb_true_iff. intros [[[[[_ _] _] Hw] Hg] _].
  unfold push_waterIntake. simpl.
  destruct (prop props "waterIntake") as [| | |n| | |] eqn:E; try discriminate.
  - apply appends_nothing. unfold populated. simpl. now rewrite E.
  - cbn -[Number_toString].
    destruct (prop props "waterGoal") as [| | |g| | |] eqn:G; try discriminate;
      cbn -[Number_toString];
      [|destruct (g =? 0); cbn -[Number_toString]];
      apply (appends_line props WaterIntake);
      try (unfold populated; simpl; now rewrite E);
      intros _; repeat first [rewrite no_LF_app | rewrite no_LF_Number_toString
                             | progress cbn -[Number_toString]]; reflexivity.
Qed.

Lemma push_emergencyContacts_appends props context :
  conforms props = true ->
  appends props EmergencyContacts context
    (push_emergencyContacts (VObj props) context).
Proof.
  unfold conforms. rewrite !andb_true_iff. intros [[[[[_ _] _] _] _] Hc].
  unfold push_emergencyContacts. simpl.
  destruct (prop props "emergencyContacts") as [| | | | |elems|] eqn:E; try discriminate.
  - apply appends_nothing. unfold populated. simpl. now rewrite E.
  - simpl in Hc. destruct elems as [|c elems].
    + apply appends_nothing. unfold populated. simpl. now rewrite E.
    + destruct (mapM_contacts (c :: elems) Hc) as [contacts [Hcontacts Hno]].
      cbn -[mapM String.concat]. rewrite Hcontacts. cbn -[String.concat].
      apply (appends_line props EmergencyContacts).
      * unfold populated. simpl. now rewrite E.
      * unfold texts_no_LF. rewrite E. rewrite !andb_true_iff.
        intros [_ Hs]. apply no_LF_concat; [reflexivity | now apply Hno].
Qed.

End Blocks.

(** ** [buildUserContext] as a whole *)

Lemma buildUserContext_run `{Host} (w : World) (userData : value) (st : State) :
  buildUserContext w userData st =
  (bind (context_at_return (clock w (reads st)) userData)
        (fun context => Normal (String.concat LF context)),
   tick st).
Proof.
  unfold buildUserContext, bindM, new_Date, lift, ret.
  now destruct (context_at_return (clock w (reads st)) userData).
Qed.

Lemma filter_optional_fields (keep : optional_field -> bool) :
  filter keep optional_fields =
  (filter keep [Location] ++ filter keep [Medications]
   ++ filter keep [ItemLocations] ++ filter keep [WaterIntake]
   ++ filter keep [EmergencyContacts])%list.
Proof.
  unfold optional_fields. simpl.
  destruct (keep Location), (keep Medications), (keep ItemLocations),
    (keep WaterIntake), (keep EmergencyContacts); reflexivity.
Qed.

(** On data of the expected shape the array [context] is the date line
    followed by the lines of the populated fields, in the order of the
    blocks. *)
Lemma context_entries `{Host} (now : Date) (props : list (string * value)) :
  conforms props = true ->
  exists entries,
    context_at_return now (VObj props) = Normal (date_line now :: entries)
    /\ Forall2 line_of (filter (populated props) optional_fields) entries
    /\ (texts_no_LF props = true -> forallb no_LF entries = true).
Proof.
  intros Hc. unfold context_at_return.
  destruct (push_location_appends props (push [] (date_line now)) Hc)
    as [p1 [E1 [F1 N1]]]. rewrite E1. cbn [bind].
  destruct (push_medications_appends props (push [] (date_line now) ++ p1) Hc)
    as [p2 [E2 [F2 N2]]]. rewrite E2. cbn [bind].
  destruct (push_itemLocations_appends props
              ((push [] (date_line now) ++ p1) ++ p2) Hc)
    as [p3 [E3 [F3 N3]]]. rewrite E3. cbn [bind].
  destruct (push_waterIntake_appends props
              (((push [] (date_line now) ++ p1) ++ p2) ++ p3) Hc)
    as [p4 [E4 [F4 N4]]]. rewrite E4. cbn [bind].
  destruct (push_emergencyContacts_appends props
              ((((push [] (date_line now) ++ p1) ++ p2) ++ p3) ++ p4) Hc)
    as [p5 [E5 [F5 N5]]]. rewrite E5. cbn [bind].
  exists (p1 ++ p2 ++ p3 ++ p4 ++ p5)%list. repeat split.
  - unfold push. simpl. now rewrite <- !app_assoc.
  - rewrite filter_optional_fields. repeat apply Forall2_app; assumption.
  - intros Ht. rewrite !forallb_app, N1, N2, N3, N4, N5 by exact Ht. reflexivity.
Qed.

(** [buildUserContext] reads [userData] through its properties only. *)
Lemma context_by_properties `{Host} (now : Date) (userData userData' : value) :
  (forall p, Get userData' p = Get userData p) ->
  context_at_return now userData' = context_at_return now userData.
Proof.
  intros Hsame.
  unfold context_at_return, push_location, push_medications,
    push_itemLocations, push_waterIntake, push_emergencyContacts.
  rewrite !Hsame. reflexivity.
Qed.

(** C2, as the code has it.  For every [userData] of the shape of the data
    model in which N of the five optional fields are populated,
    [buildUserContext] returns N+1 entries joined by line feeds: the
    date and time line, then the line of each populated field in the order
    location, medications, item locations, water intake, emergency
    contacts; an unpopulated field contributes nothing, and with no field
    populated the result is the date and time line alone.  When no
    rendered text holds a line feed, these entries are exactly the N+1
    lines of the result.  The order of the keys of [userData] plays no
    part: an object with the same properties gives the same result. *)
Theorem C2_one_line_per_populated_field `{Host} (w : World)
    (props : list (string * value)) (st : State) :
  conforms props = true ->
  let now := clock w (reads st) in
  let present := filter (populated props) optional_fields in
  exists entries,
    buildUserContext w (VObj props) st
    = (Normal (String.concat LF (date_line now :: entries)), tick st)
    /\ Forall2 line_of present entries
    /\ List.length (date_line now :: entries) = S (List.length present)
    /\ (present = [] ->
        String.concat LF (date_line now :: entries) = date_line now)
    /\ (no_LF (date_line now) = true -> texts_no_LF props = true ->
        split_lines (String.concat LF (date_line now :: entries))
        = date_line now :: entries)
    /\ (forall props',
          (forall p, prop props' p = prop props p) ->
          buildUserContext w (VObj props') st
          = buildUserContext w (VObj props) st).
Proof.
  intros Hc now present.
  destruct (context_entries now props Hc) as [entries [E [F N]]].
  exists entries. rewrite buildUserContext_run. fold now. rewrite E.
  repeat split.
  - exact F.
  - simpl. f_equal. symmetry. exact (Forall2_length F).
  - fold present in F. intros Hp. rewrite Hp in F. inversion F. reflexivity.
  - intros Hd Ht. apply split_lines_concat; [discriminate|].
    cbn [forallb]. now rewrite Hd, (N Ht).
  - intros props' Hsame. rewrite buildUserContext_run. fold now.
    rewrite (context_by_properties now (VObj props) (VObj props')), E.
    + reflexivity.
    + intros p. simpl. now rewrite Hsame.
Qed.

(** The sample data has three populated fields, rendered in the order of
    the blocks and not in the order of its keys; the result has four
    lines. *)
Lemma C2_witness :
  exists entries,
    @buildUserContext sample_host answering (VObj sample_userData) start
    = (Normal (String.concat LF
                 (@date_line sample_host sample_date :: entries)), tick start)
    /\ Forall2 line_of [Location; Medications; WaterIntake; EmergencyContacts]
         entries
    /\ split_lines (String.concat LF
                      (@date_line sample_host sample_date :: entries))
       = @date_line sample_host sample_date :: entries.
Proof.
  destruct (@C2_one_line_per_populated_field sample_host answering
              sample_userData start eq_refl)
    as [entries [E [F [_ [_ [S _]]]]]].
  exists entries. repeat split.
  - exact E.
  - exact F.
  - apply S; reflexivity.
Defined.

(** C2 as stated fails where a text holds a line feed: with the location
    [Kitchen], line feed, [Bedroom] one field is populated, and the result
    has three lines, not two. *)
Lemma C2_counterexample :
  conforms two_line_location = true
  /\ filter (populated two_line_location) optional_fields = [Location]
  /\ exists out,
      @buildUserContext sample_host answering (VObj two_line_location) start
      = (Normal out, tick start)
      /\ split_lines out
         = ["Current date and time: Monday, November 2, 2026 at 7:09 PM";
            "User's location: Kitchen";
            "Bedroom"]
      /\ List.length (split_lines out) <> 2%nat.
Proof.
  repeat split. eexists. repeat split. discriminate.
Qed.

(** ** The water intake line, on any [userData] *)

Lemma bind_Normal {A B} (c : completion A) (k : A -> completion B) (b : B) :
  bind c k = Normal b -> exists a, c = Normal a /\ k a = Normal b.
Proof.
  destruct c as [a|e]; simpl; intros Hk; [now exists a | discriminate].
Qed.

(** Takes a run that returned apart, bind by bind and branch by branch. *)
Ltac returned :=
  repeat match goal with
    | H : bind _ _ = Normal _ |- _ =>
        let a := fresh "a" in
        let Ha := fresh "Ha" in
        apply bind_Normal in H; destruct H as [a [Ha H]]
    | H : (if ?c then _ else _) = Normal _ |- _ =>
        let C := fresh "C" in destruct c eqn:C
    | H : Normal _ = Normal _ |- _ => injection H as H
    | H : Throw _ = Normal _ |- _ => discriminate H
    end.

Section Appending.

Context `{Host}.

Ltac extends_by_cases :=
  intros userData context context' Hrun;
  unfold push_location, push_medications, push_itemLocations,
    push_waterIntake, push_emergencyContacts in Hrun;
  returned; subst;
  solve [ exists []; now rewrite app_nil_r | eexists; reflexivity ].

Lemma push_location_extends : extends push_location.
Proof. extends_by_cases. Qed.

Lemma push_medications_extends : extends push_medications.
Proof. extends_by_cases. Qed.

Lemma push_itemLocations_extends : extends push_itemLocations.
Proof. extends_by_cases. Qed.

Lemma push_waterIntake_extends : extends push_waterIntake.
Proof. extends_by_cases. Qed.

Lemma push_emergencyContacts_extends : extends push_emergencyContacts.
Proof. extends_by_cases. Qed.

(** Whenever [waterIntake] is not [undefined] and the array [context] is
    built, it holds the water intake line, whose goal is [waterGoal] if
    that is truthy and 8 otherwise. *)
Lemma water_line (now : Date) (userData waterIntake waterGoal : value)
    (context : list string) :
  Get userData "waterIntake" = Normal waterIntake ->
  waterIntake <> VUndefined ->
  Get userData "waterGoal" = Normal waterGoal ->
  context_at_return now userData = Normal context ->
  exists intake goal,
    ToString waterIntake = Normal intake
    /\ ToString (if truthy waterGoal then waterGoal else VNum 8) = Normal goal
    /\ In ("Water intake today: " ++ intake ++ " cups out of " ++ goal
           ++ " cup daily goal") context.
Proof.
  intros Hintake Hpresent Hgoal Hrun.
  unfold context_at_return in Hrun.
  apply bind_Normal in Hrun. destruct Hrun as [c1 [_ Hrun]].
  apply bind_Normal in Hrun. destruct Hrun as [c2 [_ Hrun]].
  apply bind_Normal in Hrun. destruct Hrun as [c3 [_ Hrun]].
  apply bind_Normal in Hrun. destruct Hrun as [c4 [Hwater Hrun]].
  apply bind_Normal in Hrun. destruct Hrun as [c5 [Hlast Hrun]].
  injection Hrun as <-.
  destruct (push_emergencyContacts_extends _ _ _ Hlast) as [extra ->].
  unfold push_waterIntake in Hwater. rewrite Hintake in Hwater.
  cbn [bind] in Hwater.
  destruct waterIntake; try (now elim Hpresent);
    cbn [is_not_undefined] in Hwater;
    apply bind_Normal in Hwater; destruct Hwater as [intake [Ei Hwater]];
    rewrite Hgoal in Hwater; cbn [bind] in Hwater;
    apply bind_Normal in Hwater; destruct Hwater as [goal [Eg Hwater]];
    injection Hwater as <-;
    exists intake, goal; (repeat split; [exact Ei | exact Eg |]);
    apply in_or_app; left; apply in_or_app; right; left; reflexivity.
Qed.

(** On data of the expected shape [buildUserContext] returns. *)
Lemma buildUserContext_returns (w : World) (props : list (string * value))
    (st : State) :
  conforms props = true ->
  exists out, buildUserContext w (VObj props) st = (Normal out, tick st).
Proof.
  intros Hc. destruct (context_entries (clock w (reads st)) props Hc)
    as [entries [E _]].
  rewrite buildUserContext_run, E. eexists. reflexivity.
Qed.

(** What [buildUserContext] returns is the array [context], joined. *)
Lemma buildUserContext_returned (w : World) (userData : value)
    (st st' : State) (out : string) :
  buildUserContext w userData st = (Normal out, st') ->
  exists context,
    context_at_return (clock w (reads st)) userData = Normal context
    /\ out = String.concat LF context.
Proof.
  rewrite buildUserContext_run.
  destruct (context_at_return (clock w (reads st)) userData) as [context|e];
    simpl; intros Hrun; [|discriminate].
  exists context. split; [reflexivity | congruence].
Qed.

End Appending.

(** C6.  Whenever [waterIntake] is present (not [undefined]) and
    [waterGoal] is absent, the water intake line of the result states the
    goal as 8 cups.  The result exists for every [userData] of the shape
    of the data model. *)
Theorem C6_absent_goal_renders_8 `{Host} (w : World)
    (userData waterIntake : value) (st : State) :
  Get userData "waterIntake" = Normal waterIntake ->
  waterIntake <> VUndefined ->
  Get userData "waterGoal" = Normal VUndefined ->
  (forall props, userData = VObj props -> conforms props = true ->
     exists out, buildUserContext w userData st = (Normal out, tick st))
  /\ forall out st',
       buildUserContext w userData st = (Normal out, st') ->
       exists context intake,
         out = String.concat LF context
         /\ ToString waterIntake = Normal intake
         /\ In ("Water intake today: " ++ intake
                ++ " cups out of 8 cup daily goal") context.
Proof.
  intros Hintake Hpresent Hgoal. split.
  - intros props -> Hc. now apply buildUserContext_returns.
  - intros out st' Hrun.
    destruct (buildUserContext_returned w userData st st' out Hrun)
      as [context [Hcontext ->]].
    destruct (water_line _ _ _ _ _ Hintake Hpresent Hgoal Hcontext)
      as [intake [goal [Ei [Eg Hin]]]].
    simpl in Eg. injection Eg as <-.
    exists context, intake. repeat split; assumption.
Qed.

(** The sample data has a water intake of 3 and no goal. *)
Lemma C6_witness :
  exists context,
    @buildUserContext sample_host answering (VObj sample_userData) start
    = (Normal (String.concat LF context), tick start)
    /\ In "Water intake today: 3 cups out of 8 cup daily goal" context.
Proof.
  destruct (@C6_absent_goal_renders_8 sample_host answering
              (VObj sample_userData) (VNum 3) start eq_refl
              ltac:(discriminate) eq_refl) as [Hreturns Hline].
  destruct (Hreturns sample_userData eq_refl eq_refl) as [out Hrun].
  destruct (Hline out (tick start) Hrun) as [context [intake [-> [Ei Hin]]]].
  injection Ei as <-.
  exists context. split; [exact Hrun | exact Hin].
Defined.

(** C10.  A [waterIntake] of 0 still gives the water intake line: the
    test is [!== undefined], not truthiness.  A [waterGoal] of 0, like
    every falsy [waterGoal], is rendered as 8.  The result exists for
    every [userData] of the shape of the data model. *)
Theorem C10_zero_intake_kept_zero_goal_replaced `{Host} (w : World)
    (userData : value) (st : State) :
  (forall props, userData = VObj props -> conforms props = true ->
     exists out, buildUserContext w userData st = (Normal out, tick st))
  /\ forall out st',
       buildUserContext w userData st = (Normal out, st') ->
       exists context,
         out = String.concat LF context
         /\ (Get userData "waterIntake" = Normal (VNum 0) ->
             exists goal,
               In ("Water intake today: 0 cups out of " ++ goal
                   ++ " cup daily goal") context)
         /\ (forall waterIntake waterGoal,
               Get userData "waterIntake" = Normal waterIntake ->
               waterIntake <> VUndefined ->
               Get userData "waterGoal" = Normal waterGoal ->
               truthy waterGoal = false ->
               exists intake,
                 ToString waterIntake = Normal intake
                 /\ In ("Water intake today: " ++ intake
                        ++ " cups out of 8 cup daily goal") context)
         /\ truthy (VNum 0) = false.
Proof.
  split.
  - intros props -> Hc. now apply buildUserContext_returns.
  - intros out st' Hrun.
    destruct (buildUserContext_returned w userData st st' out Hrun)
      as [context [Hcontext ->]].
    exists context. repeat split.
    + intros Hintake.
      assert (exists waterGoal, Get userData "waterGoal" = Normal waterGoal)
        as [waterGoal Hgoal]
        by (destruct userData; try discriminate; eexists; reflexivity).
      destruct (water_line _ _ (VNum 0) _ _ Hintake ltac:(discriminate)
                  Hgoal Hcontext) as [intake [goal [Ei [_ Hin]]]].
      injection Ei as <-. now exists goal.
    + intros waterIntake waterGoal Hintake Hpresent Hgoal Hfalsy.
      destruct (water_line _ _ _ _ _ Hintake Hpresent Hgoal Hcontext)
        as [intake [goal [Ei [Eg Hin]]]].
      rewrite Hfalsy in Eg. simpl in Eg. injection Eg as <-.
      now exists intake.
Qed.

(** With intake 0 and goal 0 the line reads 0 cups out of 8. *)
Lemma C10_witness :
  exists context,
    @buildUserContext sample_host answering zero_water start
    = (Normal (String.concat LF context), tick start)
    /\ In "Water intake today: 0 cups out of 8 cup daily goal" context.
Proof.
  destruct (@C10_zero_intake_kept_zero_goal_replaced sample_host answering
              zero_water start) as [Hreturns Hline].
  destruct (Hreturns _ eq_refl eq_refl) as [out Hrun].
  destruct (Hline out (tick start) Hrun) as [context [-> [_ [Hgoal _]]]].
  destruct (Hgoal (VNum 0) (VNum 0) eq_refl ltac:(discriminate) eq_refl eq_refl)
    as [intake [Ei Hin]].
  injection Ei as <-.
  exists context. split; [exact Hrun | exact Hin].
Defined.

(** ** Lists that are not lists *)

Lemma bind_ext {A B} (c : completion A) (k k' : A -> completion B) :
  (forall a, k a = k' a) -> bind c k = bind c k'.
Proof.
  intros Hk. destruct c; simpl; [apply Hk | reflexivity].
Qed.

Section Malformed.

Context `{Host}.

Lemma push_medications_skips userData context m :
  Get userData "medications" = Normal m ->
  lengthless m = true \/ m = VArr [] ->
  push_medications userData context = Normal context.
Proof.
  intros Hm Hshape. unfold push_medications. rewrite Hm. cbn [bind].
  destruct Hshape as [Hshape | ->]; [|reflexivity].
  destruct m as [| |b|n|s| |p]; simpl in Hshape; try discriminate;
    try reflexivity.
  - now destruct b.
  - simpl. now destruct (n =? 0).
  - simpl. now rewrite Hshape.
  - simpl. unfold prop. unfold has_own in Hshape.
    now destruct (lookup "length" p).
Qed.

Lemma push_emergencyContacts_skips userData context m :
  Get userData "emergencyContacts" = Normal m ->
  lengthless m = true \/ m = VArr [] ->
  push_emergencyContacts userData context = Normal context.
Proof.
  intros Hm Hshape. unfold push_emergencyContacts. rewrite Hm. cbn [bind].
  destruct Hshape as [Hshape | ->]; [|reflexivity].
  destruct m as [| |b|n|s| |p]; simpl in Hshape; try discriminate;
    try reflexivity.
  - now destruct b.
  - simpl. now destruct (n =? 0).
  - simpl. now rewrite Hshape.
  - simpl. unfold prop. unfold has_own in Hshape.
    now destruct (lookup "length" p).
Qed.

Lemma push_medications_throws userData context s :
  Get userData "medications" = Normal (VStr s) -> s <> "" ->
  push_medications userData context
  = Throw (TypeError "map is not a function").
Proof.
  intros Hm Hs. unfold push_medications. rewrite Hm.
  destruct s as [|c s]; [now elim Hs | reflexivity].
Qed.

Lemma push_emergencyContacts_throws userData context s :
  Get userData "emergencyContacts" = Normal (VStr s) -> s <> "" ->
  push_emergencyContacts userData context
  = Throw (TypeError "map is not a function").
Proof.
  intros Hm Hs. unfold push_emergencyContacts. rewrite Hm.
  destruct s as [|c s]; [now elim Hs | reflexivity].
Qed.

End Malformed.

(** C4, as the code has it.  [buildUserContext] does not validate the
    shape of [medications] and [emergencyContacts].  A value that is not a
    list and has no length ([undefined], [null], a boolean, a number, the
    empty string, an object without own [length]) is treated like the empty
    list: the result is the one for the same [userData] with the empty list
    in its place.  A non-empty string has a positive length and no [map]:
    [buildUserContext] throws. *)
Theorem C4_lists_are_not_validated `{Host} (w : World)
    (userData m : value) (k : string) (st : State) :
  k = "medications" \/ k = "emergencyContacts" ->
  Get userData k = Normal m ->
  (lengthless m = true ->
   forall userData',
     (forall p, p <> k -> Get userData' p = Get userData p) ->
     Get userData' k = Normal (VArr []) ->
     buildUserContext w userData st = buildUserContext w userData' st)
  /\ (forall s, m = VStr s -> s <> "" ->
      exists e, buildUserContext w userData st = (Throw e, tick st)).
Proof.
  intros Hk Hm. split.
  - intros Hshape userData' Hsame Hempty.
    rewrite !buildUserContext_run. f_equal. f_equal.
    unfold context_at_return.
    destruct Hk as [-> | ->].
    + unfold push_location, push_itemLocations, push_waterIntake,
        push_emergencyContacts.
      rewrite !Hsame by discriminate.
      apply bind_ext; intros c1.
      rewrite (push_medications_skips userData c1 m Hm (or_introl Hshape)).
      rewrite (push_medications_skips userData' c1 _ Hempty (or_intror eq_refl)).
      reflexivity.
    + unfold push_location, push_medications, push_itemLocations,
        push_waterIntake.
      rewrite !Hsame by discriminate.
      repeat (apply bind_ext; intros ?).
      rewrite (push_emergencyContacts_skips userData _ m Hm (or_introl Hshape)).
      rewrite (push_emergencyContacts_skips userData' _ _ Hempty
                 (or_intror eq_refl)).
      reflexivity.
  - intros s -> Hs. rewrite buildUserContext_run. unfold context_at_return.
    destruct Hk as [-> | ->].
    + destruct (push_location userData _) as [c1|e]; cbn [bind];
        [rewrite (push_medications_throws _ _ s Hm Hs) |]; eexists; reflexivity.
    + destruct (push_location userData _) as [c1|e]; cbn [bind];
        [|eexists; reflexivity].
      destruct (push_medications userData _) as [c2|e]; cbn [bind];
        [|eexists; reflexivity].
      destruct (push_itemLocations userData _) as [c3|e]; cbn [bind];
        [|eexists; reflexivity].
      destruct (push_waterIntake userData _) as [c4|e]; cbn [bind];
        [|eexists; reflexivity].
      rewrite (push_emergencyContacts_throws _ _ s Hm Hs).
      eexists; reflexivity.
Qed.

(** Medications sent as the number 5 are rendered like the empty list;
    medications sent as the text [aspirin] make [buildUserContext] throw. *)
Lemma C4_witness :
  @buildUserContext sample_host answering (medications_as (VNum 5)) start
  = @buildUserContext sample_host answering (medications_as (VArr [])) start
  /\ exists e,
      @buildUserContext sample_host answering
        (medications_as (VStr "aspirin")) start
      = (Throw e, tick start).
Proof.
  split.
  - apply (@C4_lists_are_not_validated sample_host answering
             (medications_as (VNum 5)) (VNum 5) "medications" start
             (or_introl eq_refl) eq_refl).
    + reflexivity.
    + intros p Hp. cbv [medications_as Get prop lookup].
      destruct (String.eqb "location" p); [reflexivity|].
      destruct (String.eqb_spec "medications" p) as [E|_];
        [now elim Hp | reflexivity].
    + reflexivity.
  - apply (proj2 (@C4_lists_are_not_validated sample_host answering
                      (medications_as (VStr "aspirin")) (VStr "aspirin")
                      "medications" start (or_introl eq_refl) eq_refl)
             "aspirin" eq_refl).
    discriminate.
Defined.

(** C4 as stated fails: with medications sent as the text [aspirin],
    [buildUserContext] throws a [TypeError], which the route answers with
    status 500 and no upstream call. *)
Lemma C4_counterexample :
  @buildUserContext sample_host answering (medications_as (VStr "aspirin")) start
  = (Throw (TypeError "map is not a function"), tick start)
  /\ @context_at_return sample_host sample_date (medications_as (VArr []))
     = Normal ["Current date and time: Monday, November 2, 2026 at 7:09 PM";
               "User's location: Kitchen"].
Proof.
  split; reflexivity.
Qed.

(** ** Calls to the upstream API *)

Create HintDb effects.

Lemma quiet_ret {A} (a : A) : quiet (ret a).
Proof. intros st. reflexivity. Qed.

Lemma quiet_lift {A} (c : completion A) : quiet (lift c).
Proof. intros st. reflexivity. Qed.

Lemma quiet_bindM {A B} (m : M A) (k : A -> M B) :
  quiet m -> (forall a, quiet (k a)) -> quiet (bindM m k).
Proof.
  intros Hm Hk st. unfold bindM. specialize (Hm st).
  destruct (m st) as [[a|e] st1]; simpl in *.
  - now rewrite Hk.
  - exact Hm.
Qed.

Lemma quiet_try_catch {A} (body : M A) (handler : value -> M A) :
  quiet body -> (forall e, quiet (handler e)) -> quiet (try_catch body handler).
Proof.
  intros Hb Hh st. unfold try_catch. specialize (Hb st).
  destruct (body st) as [[a|e] st1]; simpl in *.
  - exact Hb.
  - now rewrite Hh.
Qed.

Lemma single_of_quiet {A} (m : M A) : quiet m -> single m.
Proof.
  intros Hm st. exists []. rewrite Hm, app_nil_r. split; [reflexivity | auto].
Qed.

Lemma single_after_quiet {A B} (m : M A) (k : A -> M B) :
  quiet m -> (forall a, single (k a)) -> single (bindM m k).
Proof.
  intros Hm Hk st. unfold bindM. specialize (Hm st).
  destruct (m st) as [[a|e] st1]; simpl in *.
  - rewrite <- Hm. apply Hk.
  - exists []. rewrite Hm, app_nil_r. split; [reflexivity | auto].
Qed.

Lemma single_before_quiet {A B} (m : M A) (k : A -> M B) :
  single m -> (forall a, quiet (k a)) -> single (bindM m k).
Proof.
  intros Hm Hk st. unfold bindM. specialize (Hm st).
  destruct (m st) as [[a|e] st1]; simpl in *.
  - now rewrite Hk.
  - exact Hm.
Qed.

Lemma single_try_catch {A} (body : M A) (handler : value -> M A) :
  single body -> (forall e, quiet (handler e)) -> single (try_catch body handler).
Proof.
  intros Hb Hh st. unfold try_catch. specialize (Hb st).
  destruct (body st) as [[a|e] st1]; simpl in *.
  - exact Hb.
  - now rewrite Hh.
Qed.

#[local] Hint Resolve quiet_ret quiet_lift : effects.

Section Effects.

Context `{Host} (w : World).

Lemma quiet_new_Date : quiet (new_Date w).
Proof. intros st. reflexivity. Qed.

Lemma quiet_console_write o : quiet (console_write o).
Proof. intros st. reflexivity. Qed.

Lemma quiet_res_status_json code payload : quiet (res_status_json code payload).
Proof. intros st. reflexivity. Qed.

Lemma single_messages_create params : single (messages_create w params).
Proof. intros st. exists [params]. split; [reflexivity | auto]. Qed.

#[local] Hint Resolve quiet_new_Date quiet_console_write
  quiet_res_status_json : effects.

(** Cuts a sequence of quiet steps into its steps. *)
Ltac quiet_steps :=
  repeat first
    [ apply quiet_bindM; [solve [auto with effects] | intros ?]
    | match goal with |- quiet (if ?c then _ else _) => destruct c end ];
  auto with effects.

Lemma quiet_buildUserContext userData : quiet (buildUserContext w userData).
Proof. unfold buildUserContext. quiet_steps. Qed.

Lemma quiet_respond message response : quiet (respond w message response).
Proof. unfold respond, res_json. quiet_steps. Qed.

Lemma quiet_catch_block error : quiet (catch_block error).
Proof. unfold catch_block. quiet_steps. Qed.

Lemma single_try_block req_body : single (try_block w req_body).
Proof.
  unfold try_block.
  apply single_after_quiet; [auto with effects | intros message].
  apply single_after_quiet; [auto with effects | intros userData].
  destruct (negb (truthy message) || negb (typeof_is_string message)).
  - apply single_of_quiet. auto with effects.
  - apply single_after_quiet; [apply quiet_buildUserContext | intros userContext].
    apply single_before_quiet; [apply single_messages_create | intros response].
    apply quiet_respond.
Qed.

(** ** The paths of the handler *)

(** A value that has one property has them all: it is neither [null] nor
    [undefined]. *)
Lemma Get_any (v x : value) (p q : string) :
  Get v p = Normal x -> exists y, Get v q = Normal y.
Proof.
  destruct v; simpl; intros Hp; try discriminate; eexists; reflexivity.
Qed.

(** The bad request path. *)
Lemma router_post_rejects (req_body message : value) (st : State) :
  Get req_body "message" = Normal message ->
  negb (truthy message) || negb (typeof_is_string message) = true ->
  router_post w req_body st
  = (Normal tt,
     responded
       {| statusCode := 400;
          body := VObj [("error",
                         VStr "Message is required and must be a string")] |}
       st).
Proof.
  intros Hmessage Hbad.
  destruct (Get_any _ _ _ "userData" Hmessage) as [userData HuserData].
  unfold router_post, try_catch, try_block, bindM, lift.
  rewrite Hmessage, HuserData, Hbad. reflexivity.
Qed.

(** The path up to the upstream call, for a message that passes the check
    and a [userData] that [buildUserContext] renders. *)
Lemma router_post_reaches_upstream (req_body userData : value)
    (message : string) (context : list string) (st : State) :
  Get req_body "message" = Normal (VStr message) ->
  message <> "" ->
  Get req_body "userData" = Normal userData ->
  context_at_return (clock w (reads st)) (userData_or_default userData)
  = Normal context ->
  let params :=
    create_params (systemPrompt (String.concat LF context)) (VStr message) in
  router_post w req_body st
  = match create w (List.length (calls st)) params with
    | Normal response =>
        try_catch (respond w (VStr message) response) catch_block
          (called params (tick st))
    | Throw error => catch_block error (called params (tick st))
    end.
Proof.
  intros Hmessage Hnonempty HuserData Hcontext params.
  unfold router_post, try_catch at 1, try_block, bindM at 1 2, lift.
  rewrite Hmessage, HuserData.
  assert (negb (truthy (VStr message)) || negb (typeof_is_string (VStr message))
          = false) as ->
    by (destruct message; [now elim Hnonempty | reflexivity]).
  unfold bindM at 1. rewrite buildUserContext_run, Hcontext. cbn [bind].
  unfold bindM, messages_create. cbn [calls tick]. fold params.
  unfold try_catch.
  now destruct (create w (List.length (calls st)) params).
Qed.

End Effects.

(** ** The handler of [POST /api/chat] *)

(** C1.  When [message] is missing from the body, [null], or of any type
    other than string, the handler answers with status 400 and an error
    payload, and makes no upstream call. *)
Theorem C1_message_not_a_string_gives_400 `{Host} (w : World)
    (req_body message : value) :
  Get req_body "message" = Normal message ->
  typeof_is_string message = false ->
  router_post w req_body start
  = (Normal tt,
     {| reads := 0; calls := []; console := [];
        sent := [{| statusCode := 400;
                    body := VObj [("error",
                                   VStr "Message is required and must be a string")] |}] |}).
Proof.
  intros Hmessage Htype.
  rewrite (router_post_rejects w req_body message start Hmessage).
  - reflexivity.
  - rewrite Htype. apply orb_true_r.
Qed.

(** A body without [message], one with [null] and one with a number. *)
Lemma C1_witness :
  (calls (snd (@router_post sample_host answering request_without_message start)) = []
   /\ map statusCode
        (sent (snd (@router_post sample_host answering request_without_message start)))
      = [400])
  /\ (calls (snd (@router_post sample_host answering (request VNull) start)) = []
      /\ map statusCode
           (sent (snd (@router_post sample_host answering (request VNull) start)))
         = [400])
  /\ (calls (snd (@router_post sample_host answering (request (VNum 42)) start)) = []
      /\ map statusCode
           (sent (snd (@router_post sample_host answering (request (VNum 42)) start)))
         = [400]).
Proof.
  rewrite (@C1_message_not_a_string_gives_400 sample_host answering
             request_without_message VUndefined eq_refl eq_refl).
  rewrite (@C1_message_not_a_string_gives_400 sample_host answering
             (request VNull) VNull eq_refl eq_refl).
  rewrite (@C1_message_not_a_string_gives_400 sample_host answering
             (request (VNum 42)) (VNum 42) eq_refl eq_refl).
  repeat split.
Defined.

(** C9.  The check rejects every falsy [message], the empty string
    included although it is a string: the handler answers with status 400
    and makes no upstream call. *)
Theorem C9_empty_message_gives_400 `{Host} (w : World)
    (req_body message : value) :
  Get req_body "message" = Normal message ->
  truthy message = false ->
  typeof_is_string (VStr "") = true
  /\ truthy (VStr "") = false
  /\ router_post w req_body start
     = (Normal tt,
        {| reads := 0; calls := []; console := [];
           sent := [{| statusCode := 400;
                       body := VObj [("error",
                                      VStr "Message is required and must be a string")] |}] |}).
Proof.
  intros Hmessage Hfalsy. repeat split.
  rewrite (router_post_rejects w req_body message start Hmessage).
  - reflexivity.
  - now rewrite Hfalsy.
Qed.

(** The empty message. *)
Lemma C9_witness :
  calls (snd (@router_post sample_host answering (request (VStr "")) start)) = []
  /\ map statusCode
       (sent (snd (@router_post sample_host answering (request (VStr "")) start)))
     = [400].
Proof.
  destruct (@C9_empty_message_gives_400 sample_host answering
              (request (VStr "")) (VStr "") eq_refl eq_refl) as [_ [_ Hrun]].
  rewrite Hrun. split; reflexivity.
Defined.

(** C7.  Whatever the body, the clock and the upstream API do, handling
    one request adds at most one call to the calls made so far: none is
    repeated after an error. *)
Theorem C7_at_most_one_upstream_call `{Host} (w : World) (req_body : value)
    (st : State) :
  exists extra,
    calls (snd (router_post w req_body st)) = (calls st ++ extra)%list
    /\ (List.length extra <= 1)%nat.
Proof.
  exact (single_try_catch (try_block w req_body) catch_block
           (single_try_block w req_body) (quiet_catch_block w) st).
Qed.

(** C8.  For every request with a non-empty string [message], the handler
    passes to [buildUserContext] the [userData] of the body, or the empty
    object when the body has none; whenever that call returns, the upstream
    API is called exactly once, whatever it then answers: with the persona
    template as [system], the returned context standing in it verbatim
    under the label [Current user information:], [max_tokens] 300,
    [temperature] 0.7, and one turn in [messages], of role [user], whose
    content is [message].  [buildUserContext] returns for every [userData]
    of the shape of the data model, the absent one included. *)
Theorem C8_upstream_call_parameters `{Host} (w : World)
    (req_body userData : value) (message : string) :
  Get req_body "message" = Normal (VStr message) ->
  message <> "" ->
  Get req_body "userData" = Normal userData ->
  let passed :=
    match userData with
    | VUndefined => VObj []
    | _ => userData
    end in
  (forall userContext st1,
     buildUserContext w passed start = (Normal userContext, st1) ->
     exists params,
       calls (snd (router_post w req_body start)) = [params]
       /\ model params = "claude-3-sonnet-20240229"
       /\ max_tokens params = 300
       /\ temperature params = QArith_base.Qmake 7 10
       /\ system params
          = "You are a helpful AI assistant for a senior adult. You help with daily tasks like:
- Finding items around the house
- Tracking medications and health
- Answering questions about time, date, and weather
- Providing general assistance and companionship

Guidelines for responses:
- Keep responses clear, warm, and easy to understand
- Use simple language appropriate for seniors
- Be patient and encouraging
- If asked about medical advice, suggest consulting healthcare providers
- Help with practical daily tasks
- Be conversational and friendly

Current user information:
" ++ userContext ++ "

Remember to use this information to give personalized, helpful responses."
       /\ messages params = [{| role := "user"; content := VStr message |}])
  /\ (forall props,
        passed = VObj props -> conforms props = true ->
        exists userContext,
          buildUserContext w passed start = (Normal userContext, tick start)).
Proof.
  intros Hmessage Hnonempty HuserData passed.
  assert (userData_or_default userData = passed) as Hpassed
    by (destruct userData; reflexivity).
  split.
  - intros userContext st1 Hrun.
    destruct (buildUserContext_returned w passed start st1 userContext Hrun)
      as [context [Hcontext ->]].
    cbn [reads start] in Hcontext. rewrite <- Hpassed in Hcontext.
    exists (create_params (systemPrompt (String.concat LF context))
              (VStr message)).
    repeat split.
    rewrite (router_post_reaches_upstream w req_body userData message context
               start Hmessage Hnonempty HuserData Hcontext).
    destruct (create w _ _) as [response|error].
    + rewrite (quiet_try_catch _ _ (quiet_respond w _ response)
                 (quiet_catch_block w)).
      reflexivity.
    + rewrite (quiet_catch_block w). reflexivity.
  - intros props -> Hshape. now apply buildUserContext_returns.
Qed.

(** The sample request reaches the upstream API with these parameters. *)
Lemma C8_witness :
  exists params,
    calls (snd (@router_post sample_host answering (request (VStr "Where are my keys?")) start))
    = [params]
    /\ max_tokens params = 300
    /\ messages params
       = [{| role := "user"; content := VStr "Where are my keys?" |}].
Proof.
  destruct (@C8_upstream_call_parameters sample_host answering
              (request (VStr "Where are my keys?")) (VObj sample_userData)
              "Where are my keys?" eq_refl ltac:(discriminate) eq_refl)
    as [Hcalled Hreturns].
  destruct (Hreturns sample_userData eq_refl eq_refl) as [userContext Hrun].
  destruct (Hcalled userContext (tick start) Hrun)
    as [params [Hcalls [_ [Htokens [_ [_ Hmessages]]]]]].
  exists params. repeat split; assumption.
Defined.

(** C3.  When the upstream call throws an error, the handler answers by
    the error's [status]: 401 gives status 500 with the error code
    [API authentication failed]; 429 gives status 429; anything else gives
    status 500 with the generic fallback.  Each answer carries an [error]
    and a [fallback]; the fallback texts are not empty and differ from each
    other.  The call is not repeated. *)
Theorem C3_upstream_error_answers `{Host} (w : World)
    (req_body userData error status : value) (message : string)
    (context : list string) :
  Get req_body "message" = Normal (VStr message) ->
  message <> "" ->
  Get req_body "userData" = Normal userData ->
  context_at_return (clock w 0) (userData_or_default userData)
  = Normal context ->
  let params :=
    create_params (systemPrompt (String.concat LF context)) (VStr message) in
  create w 0 params = Throw error ->
  Get error "status" = Normal status ->
  let after := snd (router_post w req_body start) in
  let connecting :=
    "I'm having trouble connecting right now. Please try again in a moment." in
  let too_many :=
    "I'm getting too many requests right now. Please wait a moment and try again." in
  let understanding :=
    "I'm having trouble understanding right now. Could you try asking again?" in
  (status = VNum 401 ->
   sent after = [{| statusCode := 500;
                    body := VObj [("error", VStr "API authentication failed");
                                  ("fallback", VStr connecting)] |}])
  /\ (status = VNum 429 ->
      sent after = [{| statusCode := 429;
                       body := VObj [("error", VStr "Rate limit exceeded");
                                     ("fallback", VStr too_many)] |}])
  /\ (status <> VNum 401 -> status <> VNum 429 ->
      sent after = [{| statusCode := 500;
                       body := VObj [("error", VStr "Failed to get response");
                                     ("fallback", VStr understanding)] |}])
  /\ connecting <> "" /\ too_many <> "" /\ understanding <> ""
  /\ too_many <> connecting /\ too_many <> understanding
  /\ calls after = [params].
Proof.
  intros Hmessage Hnonempty HuserData Hcontext params Hthrows Hstatus
    after connecting too_many understanding.
  assert (router_post w req_body start
          = catch_block error (called params (tick start))) as Hrun.
  { rewrite (router_post_reaches_upstream w req_body userData message context
               start Hmessage Hnonempty HuserData Hcontext).
    fold params. cbn [calls start List.length]. now rewrite Hthrows. }
  unfold after. rewrite Hrun.
  unfold catch_block, bindM, console_write, lift. rewrite Hstatus.
  repeat split; try discriminate.
  - now intros ->.
  - now intros ->.
  - intros H401 H429.
    assert (strict_equals_number status 401 = false) as ->.
    { destruct status as [| | |n| | |]; try reflexivity. simpl.
      destruct (Z.eqb_spec n 401) as [->|]; [now elim H401 | reflexivity]. }
    assert (strict_equals_number status 429 = false) as ->.
    { destruct status as [| | |n| | |]; try reflexivity. simpl.
      destruct (Z.eqb_spec n 429) as [->|]; [now elim H429 | reflexivity]. }
    reflexivity.
  - destruct (strict_equals_number status 401);
      [|destruct (strict_equals_number status 429)]; reflexivity.
Qed.

(** An upstream that fails with status 429: the handler answers 429. *)
Lemma C3_witness :
  map statusCode
    (sent (snd (@router_post sample_host (failing (VNum 429))
                  (request (VStr "Where are my keys?")) start)))
  = [429].
Proof.
  destruct (@C3_upstream_error_answers sample_host (failing (VNum 429))
              (request (VStr "Where are my keys?")) (VObj sample_userData)
              (VObj [("status", VNum 429)]) (VNum 429)
              "Where are my keys?" _ eq_refl ltac:(discriminate) eq_refl
              eq_refl eq_refl eq_refl)
    as [_ [Hrate _]].
  rewrite (Hrate eq_refl). reflexivity.
Defined.

(** ** The timestamp *)

Lemma is_digit_digit (n : Z) : is_digit (digit n) = true.
Proof.
  unfold digit. pose proof (Z.mod_pos_bound n 10 ltac:(lia)) as Hr.
  assert (n mod 10 = 0 \/ n mod 10 = 1 \/ n mod 10 = 2 \/ n mod 10 = 3
          \/ n mod 10 = 4 \/ n mod 10 = 5 \/ n mod 10 = 6 \/ n mod 10 = 7
          \/ n mod 10 = 8 \/ n mod 10 = 9) as Hcases by lia.
  repeat destruct Hcases as [-> | Hcases]; try reflexivity.
  now rewrite Hcases.
Qed.

Lemma digit_value_digit (n : Z) : digit_value (digit n) = n mod 10.
Proof.
  unfold digit. pose proof (Z.mod_pos_bound n 10 ltac:(lia)) as Hr.
  assert (n mod 10 = 0 \/ n mod 10 = 1 \/ n mod 10 = 2 \/ n mod 10 = 3
          \/ n mod 10 = 4 \/ n mod 10 = 5 \/ n mod 10 = 6 \/ n mod 10 = 7
          \/ n mod 10 = 8 \/ n mod 10 = 9) as Hcases by lia.
  repeat destruct Hcases as [-> | Hcases]; try reflexivity.
  now rewrite Hcases.
Qed.

(** Two padded digits denote the number they were made from. *)
Lemma two_digits (n : Z) :
  0 <= n < 100 -> number_of [digit (n / 10); digit n] = n.
Proof.
  intros Hn. unfold number_of. cbn [fold_left].
  rewrite !digit_value_digit. rewrite (Z.mod_small (n / 10) 10).
  - rewrite (Z.mul_comm 10). simpl. symmetry. rewrite Z.mul_comm.
    apply Z.div_mod. lia.
  - split; [apply Z.div_pos; lia | apply Z.div_lt_upper_bound; lia].
Qed.

Ltac check_fields d :=
  cbn [pad append list_ascii_of_string is_ISO8601 is_date_time_tail];
  repeat first [ rewrite is_digit_digit
               | progress change (is_digit "-") with false
               | progress change (is_digit "+") with false
               | progress cbn [forallb andb orb is_date_time_tail] ];
  rewrite (two_digits (month d)), (two_digits (day d)), (two_digits (hours d)),
    (two_digits (minutes d)), (two_digits (seconds d)) by lia;
  rewrite !(proj2 (Z.leb_le _ _)) by lia;
  reflexivity.

(** [toISOString] writes a valid date in the ISO 8601 format. *)
Lemma toISOString_well_formed (d : Date) :
  valid_date d -> is_ISO8601 (toISOString d) = true.
Proof.
  intros (Hy & Hmo & Hd & Hh & Hmi & Hs & Hms).
  unfold toISOString.
  destruct ((0 <=? year d) && (year d <=? 9999)).
  - check_fields d.
  - destruct (year d <? 0); check_fields d.
Qed.

(** C5.  For a request with a non-empty string [message], when the
    upstream call succeeds with a message whose first content block has the
    text [reply], the handler answers with status 200 and a body whose
    [response] is [reply] and whose [timestamp] is the server's clock, read
    after the call, in ISO 8601 format. *)
Theorem C5_success_answers_200 `{Host} (w : World)
    (req_body userData response content first : value)
    (message reply : string) (context : list string) :
  Get req_body "message" = Normal (VStr message) ->
  message <> "" ->
  Get req_body "userData" = Normal userData ->
  context_at_return (clock w 0) (userData_or_default userData)
  = Normal context ->
  let params :=
    create_params (systemPrompt (String.concat LF context)) (VStr message) in
  create w 0 params = Normal response ->
  Get response "content" = Normal content ->
  GetIndex content 0 = Normal first ->
  Get first "text" = Normal (VStr reply) ->
  valid_date (clock w 1) ->
  router_post w req_body start
  = (Normal tt,
     {| reads := 2;
        calls := [params];
        console := [console_log ("User: " ++ message);
                    console_log ("Claude: " ++ reply)];
        sent := [{| statusCode := 200;
                    body := VObj [("response", VStr reply);
                                  ("timestamp",
                                   VStr (toISOString (clock w 1)))] |}] |})
  /\ is_ISO8601 (toISOString (clock w 1)) = true.
Proof.
  intros Hmessage Hnonempty HuserData Hcontext params Hanswers Hcontent
    Hfirst Htext Hvalid.
  split; [|now apply toISOString_well_formed].
  rewrite (router_post_reaches_upstream w req_body userData message context
             start Hmessage Hnonempty HuserData Hcontext).
  fold params. cbn [calls start List.length]. rewrite Hanswers.
  unfold try_catch, respond, bindM, lift. rewrite Hcontent, Hfirst, Htext.
  reflexivity.
Qed.

(** The sample request, answered by the sample upstream. *)
Lemma C5_witness :
  sent (snd (@router_post sample_host answering
               (request (VStr "Where are my keys?")) start))
  = [{| statusCode := 200;
        body := VObj [("response", VStr "Hello!");
                      ("timestamp", VStr "2026-11-02T19:09:05.042Z")] |}]
  /\ is_ISO8601 "2026-11-02T19:09:05.042Z" = true.
Proof.
  destruct (@C5_success_answers_200 sample_host answering
              (request (VStr "Where are my keys?")) (VObj sample_userData)
              sample_reply _ _ "Where are my keys?" "Hello!" _
              eq_refl ltac:(discriminate) eq_refl eq_refl eq_refl eq_refl
              eq_refl eq_refl)
    as [Hrun Hiso].
  - unfold valid_date. simpl. lia.
  - rewrite Hrun. split; [reflexivity | exact Hiso].
Defined.

(** ** What the engine throws *)

Lemma bind_Throw {A B} (c : completion A) (k : A -> completion B) (e : value) :
  bind c k = Throw e ->
  c = Throw e \/ exists a, c = Normal a /\ k a = Throw e.
Proof.
  destruct c as [a|e']; simpl; intros Hk.
  - right. now exists a.
  - left. now injection Hk as ->.
Qed.

Lemma TypeError_is_TypeError (message : string) : is_TypeError (TypeError message).
Proof. now exists message. Qed.

Lemma Get_throws (v : value) (p : string) (e : value) :
  Get v p = Throw e -> is_TypeError e.
Proof.
  destruct v; simpl; intros Hrun; try discriminate;
    injection Hrun as <-; apply TypeError_is_TypeError.
Qed.

Lemma GetIndex_throws (v : value) (i : nat) (e : value) :
  GetIndex v i = Throw e -> is_TypeError e.
Proof.
  destruct v; simpl; intros Hrun; try discriminate;
    injection Hrun as <-; apply TypeError_is_TypeError.
Qed.

(** Induction on a value through the elements of its arrays. *)
Lemma value_ind_elements (P : value -> Prop) :
  P VUndefined -> P VNull -> (forall b, P (VBool b)) -> (forall n, P (VNum n)) ->
  (forall s, P (VStr s)) ->
  (forall elems, Forall P elems -> P (VArr elems)) ->
  (forall props, P (VObj props)) ->
  forall v, P v.
Proof.
  intros Hu Hn Hb Hz Hs Ha Ho. fix IH 1. intros v.
  destruct v as [| |b|n|s|elems|props];
    [exact Hu | exact Hn | apply Hb | apply Hz | apply Hs | | apply Ho].
  apply Ha. induction elems as [|x elems IHelems]; constructor.
  - apply IH.
  - exact IHelems.
Qed.

Lemma ToString_throws (v e : value) :
  ToString v = Throw e -> is_TypeError e.
Proof.
  revert e. induction v as [| |b|n|s|elems IH|props] using value_ind_elements;
    intros e; simpl; try discriminate.
  - intros Hrun. apply bind_Throw in Hrun.
    destruct Hrun as [Hrun | [ss [_ Hrun]]]; [|discriminate].
    induction IH as [|x elems Hx _ IHelems]; [discriminate|].
    apply bind_Throw in Hrun.
    destruct Hrun as [Hthrown | [s [_ Hrun]]].
    + destruct x; try discriminate; exact (Hx _ Hthrown).
    + apply bind_Throw in Hrun.
      destruct Hrun as [Hrest | [ss [_ Hrun]]]; [|discriminate].
      exact (IHelems Hrest).
  - destruct (has_own props "toString"); [|discriminate].
    intros Hrun. injection Hrun as <-. apply TypeError_is_TypeError.
Qed.

Lemma mapM_throws {A B} (f : A -> completion B) (l : list A) (e : value) :
  (forall a, f a = Throw e -> is_TypeError e) ->
  mapM f l = Throw e -> is_TypeError e.
Proof.
  intros Hf. induction l as [|a l IH]; simpl; [discriminate|].
  intros Hrun. apply bind_Throw in Hrun.
  destruct Hrun as [Ha | [b [_ Hrun]]]; [exact (Hf a Ha)|].
  apply bind_Throw in Hrun.
  destruct Hrun as [Hl | [bs [_ Hrun]]]; [exact (IH Hl) | discriminate].
Qed.

Lemma Array_map_throws {A} (v : value) (f : value -> completion A) (e : value) :
  (forall a, f a = Throw e -> is_TypeError e) ->
  Array_map v f = Throw e -> is_TypeError e.
Proof.
  intros Hf. destruct v; simpl; intros Hrun;
    try (injection Hrun as <-; apply TypeError_is_TypeError).
  exact (mapM_throws f _ e Hf Hrun).
Qed.

Lemma Object_entries_throws (v e : value) :
  Object_entries v = Throw e -> is_TypeError e.
Proof.
  destruct v; simpl; intros Hrun; try discriminate;
    injection Hrun as <-; apply TypeError_is_TypeError.
Qed.

(** Takes a run that threw apart: some step threw, the steps before it
    returned. *)
Ltac thrown :=
  repeat match goal with
    | H : bind _ _ = Throw _ |- _ =>
        let a := fresh "a" in
        let Ha := fresh "Ha" in
        apply bind_Throw in H; destruct H as [H | [a [Ha H]]]
    | H : (if ?c then _ else _) = Throw _ |- _ => destruct c
    | H : Normal _ = Throw _ |- _ => discriminate H
    | H : Get _ _ = Throw _ |- _ => exact (Get_throws _ _ _ H)
    | H : GetIndex _ _ = Throw _ |- _ => exact (GetIndex_throws _ _ _ H)
    | H : ToString _ = Throw _ |- _ => exact (ToString_throws _ _ H)
    | H : Object_entries _ = Throw _ |- _ => exact (Object_entries_throws _ _ H)
    end.

Section Throwing.

Context `{Host}.

Lemma greater_than_throws (v : value) (n : Z) (e : value) :
  greater_than v n = Throw e -> is_TypeError e.
Proof.
  unfold greater_than. intros Hrun. apply bind_Throw in Hrun.
  destruct Hrun as [Hrun | [x [_ Hrun]]]; [|discriminate].
  unfold ToNumber in Hrun. destruct v; try discriminate;
    apply bind_Throw in Hrun;
    (destruct Hrun as [Hrun | [s [_ Hrun]]];
     [exact (ToString_throws _ _ Hrun) | discriminate]).
Qed.

Lemma render_medication_throws (med e : value) :
  render_medication med = Throw e -> is_TypeError e.
Proof. unfold render_medication. intros Hrun. thrown. Qed.

Lemma render_contact_throws (contact e : value) :
  render_contact contact = Throw e -> is_TypeError e.
Proof. unfold render_contact. intros Hrun. thrown. Qed.

Lemma render_item_throws (entry : string * value) (e : value) :
  render_item entry = Throw e -> is_TypeError e.
Proof. unfold render_item. intros Hrun. thrown. Qed.

(** Whatever [buildUserContext] throws is a [TypeError]. *)
Lemma context_at_return_throws (now : Date) (userData e : value) :
  context_at_return now userData = Throw e -> is_TypeError e.
Proof.
  unfold context_at_return, push_location, push_medications,
    push_itemLocations, push_waterIntake, push_emergencyContacts,
    Object_keys.
  intros Hrun. thrown;
    try match goal with
      | H : greater_than _ _ = Throw _ |- _ => exact (greater_than_throws _ _ _ H)
      | H : Array_map _ render_medication = Throw _ |- _ =>
          exact (Array_map_throws _ _ _ (fun a => render_medication_throws a _) H)
      | H : Array_map _ render_contact = Throw _ |- _ =>
          exact (Array_map_throws _ _ _ (fun a => render_contact_throws a _) H)
      | H : mapM render_item _ = Throw _ |- _ =>
          exact (mapM_throws _ _ _ (fun a => render_item_throws a _) H)
      end.
Qed.

End Throwing.

(** ** Further properties of [buildUserContext] *)

Lemma prefix_refl (a : string) : String.prefix a a = true.
Proof.
  induction a as [|c a IH]; simpl; [reflexivity|].
  destruct (ascii_dec c c) as [_|Hc]; [exact IH | now elim Hc].
Qed.

Lemma prefix_concat (sep a : string) (l : list string) :
  String.prefix a (String.concat sep (a :: l)) = true.
Proof.
  destruct l as [|b l]; simpl; [apply prefix_refl | apply prefix_app].
Qed.

Section Entries.

Context `{Host}.

Ltac at_most_one_by_cases :=
  intros userData context context' Hrun;
  unfold push_location, push_medications, push_itemLocations,
    push_waterIntake, push_emergencyContacts in Hrun;
  returned; subst;
  solve [ exists []; rewrite app_nil_r; split; [reflexivity | auto]
        | eexists [_]; split; [reflexivity | auto] ].

Lemma push_location_adds : adds_at_most_one push_location.
Proof. at_most_one_by_cases. Qed.

Lemma push_medications_adds : adds_at_most_one push_medications.
Proof. at_most_one_by_cases. Qed.

Lemma push_itemLocations_adds : adds_at_most_one push_itemLocations.
Proof. at_most_one_by_cases. Qed.

Lemma push_waterIntake_adds : adds_at_most_one push_waterIntake.
Proof. at_most_one_by_cases. Qed.

Lemma push_emergencyContacts_adds : adds_at_most_one push_emergencyContacts.
Proof. at_most_one_by_cases. Qed.

End Entries.

Section Lines.

Context `{Host}.

Ltac own_line_by_cases f :=
  intros userData context context' Hrun;
  unfold push_location, push_medications, push_itemLocations,
    push_waterIntake, push_emergencyContacts in Hrun;
  returned; subst;
  solve [ exists false, []; rewrite app_nil_r; split; [reflexivity | constructor]
        | exists true; eexists [_]; split;
          [ reflexivity
          | constructor; [exact (prefix_app (label f) _) | constructor] ] ].

Lemma push_location_own_line : adds_line_of Location push_location.
Proof. own_line_by_cases Location. Qed.

Lemma push_medications_own_line : adds_line_of Medications push_medications.
Proof. own_line_by_cases Medications. Qed.

Lemma push_itemLocations_own_line :
  adds_line_of ItemLocations push_itemLocations.
Proof. own_line_by_cases ItemLocations. Qed.

Lemma push_waterIntake_own_line : adds_line_of WaterIntake push_waterIntake.
Proof. own_line_by_cases WaterIntake. Qed.

Lemma push_emergencyContacts_own_line :
  adds_line_of EmergencyContacts push_emergencyContacts.
Proof. own_line_by_cases EmergencyContacts. Qed.

End Lines.

(** X1.  Whatever [userData] is, when [buildUserContext] returns, the
    clock has been read once, and the array [context] it joined is the
    date and time line followed by the lines of some of the five fields,
    each at most once and in the order of the blocks: at most five
    entries after the first.  The result starts with the date and time
    line. *)
Theorem X1_date_line_first_at_most_six_entries `{Host} (w : World)
    (userData : value) (st st' : State) (out : string) :
  buildUserContext w userData st = (Normal out, st') ->
  let now := clock w (reads st) in
  st' = tick st
  /\ String.prefix (date_line now) out = true
  /\ exists (keep : optional_field -> bool) (rest : list string),
      context_at_return now userData = Normal (date_line now :: rest)
      /\ out = String.concat LF (date_line now :: rest)
      /\ Forall2 line_of (filter keep optional_fields) rest
      /\ (List.length rest <= 5)%nat.
Proof.
  intros Hrun now.
  assert (st' = tick st) as ->
    by (rewrite buildUserContext_run in Hrun; congruence).
  destruct (buildUserContext_returned w userData st _ out Hrun)
    as [context [Hcontext ->]].
  fold now in Hcontext.
  assert (exists (keep : optional_field -> bool) (rest : list string),
             context = date_line now :: rest
             /\ Forall2 line_of (filter keep optional_fields) rest)
    as [keep [rest [-> Hlines]]].
  { unfold context_at_return in Hcontext.
    apply bind_Normal in Hcontext. destruct Hcontext as [c1 [H1 Hcontext]].
    apply bind_Normal in Hcontext. destruct Hcontext as [c2 [H2 Hcontext]].
    apply bind_Normal in Hcontext. destruct Hcontext as [c3 [H3 Hcontext]].
    apply bind_Normal in Hcontext. destruct Hcontext as [c4 [H4 Hcontext]].
    apply bind_Normal in Hcontext. destruct Hcontext as [c5 [H5 Hcontext]].
    injection Hcontext as <-.
    destruct (push_location_own_line _ _ _ H1) as [k1 [e1 [-> L1]]].
    destruct (push_medications_own_line _ _ _ H2) as [k2 [e2 [-> L2]]].
    destruct (push_itemLocations_own_line _ _ _ H3) as [k3 [e3 [-> L3]]].
    destruct (push_waterIntake_own_line _ _ _ H4) as [k4 [e4 [-> L4]]].
    destruct (push_emergencyContacts_own_line _ _ _ H5) as [k5 [e5 [-> L5]]].
    exists (fun f => match f with
                     | Location => k1
                     | Medications => k2
                     | ItemLocations => k3
                     | WaterIntake => k4
                     | EmergencyContacts => k5
                     end),
           (e1 ++ e2 ++ e3 ++ e4 ++ e5)%list.
    split.
    - unfold push. rewrite <- !app_assoc. reflexivity.
    - rewrite filter_optional_fields. cbn [filter].
      repeat apply Forall2_app; assumption. }
  repeat split.
  - apply prefix_concat.
  - exists keep, rest. repeat split.
    + exact Hcontext.
    + exact Hlines.
    + rewrite <- (Forall2_length Hlines).
      transitivity (List.length optional_fields); [apply filter_length_le | auto].
Qed.

Lemma X1_witness :
  String.prefix "Current date and time: Monday, November 2, 2026 at 7:09 PM"
    (String.concat LF
       ["Current date and time: Monday, November 2, 2026 at 7:09 PM";
        "User's location: Kitchen";
        "Water intake today: 3 cups out of 8 cup daily goal"])
  = true.
Proof.
  exact (proj1 (proj2
    (@X1_date_line_first_at_most_six_entries sample_host answering
       (VObj [("waterIntake", VNum 3); ("location", VStr "Kitchen")])
       start _ _ eq_refl))).
Defined.

(** X4.  A [userData] that is a boolean, a number, a string or an array
    has none of the fields: the result is the date and time line alone. *)
Theorem X4_userData_not_an_object `{Host} (w : World) (userData : value)
    (st : State) :
  not_an_object userData = true ->
  buildUserContext w userData st
  = (Normal (date_line (clock w (reads st))), tick st).
Proof.
  intros Hshape. rewrite buildUserContext_run.
  destruct userData; try discriminate; reflexivity.
Qed.

Lemma X4_witness :
  @buildUserContext sample_host answering (VStr "Kitchen") start
  = (Normal "Current date and time: Monday, November 2, 2026 at 7:09 PM",
     tick start).
Proof.
  exact (@X4_userData_not_an_object sample_host answering (VStr "Kitchen")
           start eq_refl).
Defined.

Lemma mapM_null {A} (f : value -> completion A) (elems : list value) :
  (exists e, f VNull = Throw e) -> In VNull elems ->
  exists e, mapM f elems = Throw e.
Proof.
  intros [e0 Hnull]. induction elems as [|x elems IH]; simpl; [contradiction|].
  intros [-> | Hin].
  - rewrite Hnull. now exists e0.
  - destruct (f x) as [b|e]; simpl; [|now exists e].
    destruct (IH Hin) as [e ->]. now exists e.
Qed.

(** X14.  One [null] among the medications, or among the emergency
    contacts, makes [buildUserContext] throw, whatever the other entries
    and fields are. *)
Theorem X14_null_entry_throws `{Host} (w : World) (userData : value)
    (k : string) (elems : list value) (st : State) :
  k = "medications" \/ k = "emergencyContacts" ->
  Get userData k = Normal (VArr elems) ->
  In VNull elems ->
  exists e, buildUserContext w userData st = (Throw e, tick st).
Proof.
  intros Hk Hlist Hnull. rewrite buildUserContext_run.
  assert ((0 <? Z.of_nat (List.length elems)) = true) as Hlen
    by (destruct elems; [contradiction | reflexivity]).
  assert (forall context,
             k = "medications" ->
             exists e, push_medications userData context = Throw e) as Hmeds.
  { intros context ->. unfold push_medications. rewrite Hlist.
    cbn -[Z.of_nat mapM]. rewrite Hlen. cbn [bind].
    destruct (mapM_null render_medication elems) as [e ->];
      [now eexists | exact Hnull | now exists e]. }
  assert (forall context,
             k = "emergencyContacts" ->
             exists e, push_emergencyContacts userData context = Throw e)
    as Hcontacts.
  { intros context ->. unfold push_emergencyContacts. rewrite Hlist.
    cbn -[Z.of_nat mapM]. rewrite Hlen. cbn [bind].
    destruct (mapM_null render_contact elems) as [e ->];
      [now eexists | exact Hnull | now exists e]. }
  unfold context_at_return.
  destruct (push_location userData _) as [c1|e]; cbn [bind];
    [|eexists; reflexivity].
  destruct Hk as [Hk | Hk].
  - destruct (Hmeds c1 Hk) as [e ->]. eexists; reflexivity.
  - destruct (push_medications userData _) as [c2|e]; cbn [bind];
      [|eexists; reflexivity].
    destruct (push_itemLocations userData _) as [c3|e]; cbn [bind];
      [|eexists; reflexivity].
    destruct (push_waterIntake userData _) as [c4|e]; cbn [bind];
      [|eexists; reflexivity].
    destruct (Hcontacts c4 Hk) as [e ->]. eexists; reflexivity.
Qed.

Lemma X14_witness :
  exists e,
    @buildUserContext sample_host answering
      (medications_as
         (VArr [VObj [("name", VStr "Aspirin"); ("time", VStr "8:00 AM")];
                VNull])) start
    = (Throw e, tick start).
Proof.
  apply (@X14_null_entry_throws sample_host answering
           (medications_as
              (VArr [VObj [("name", VStr "Aspirin"); ("time", VStr "8:00 AM")];
                     VNull]))
           "medications"
           [VObj [("name", VStr "Aspirin"); ("time", VStr "8:00 AM")]; VNull]
           start (or_introl eq_refl) eq_refl).
  right. left. reflexivity.
Defined.

(** ** Further properties of the handler of [POST /] *)

Lemma TypeError_has_no_status (e : value) :
  is_TypeError e -> Get e "status" = Normal VUndefined.
Proof. intros [message ->]. reflexivity. Qed.

(** The [catch] block on an error without status. *)
Lemma catch_block_without_status (e : value) (st : State) :
  Get e "status" = Normal VUndefined ->
  catch_block e st
  = (Normal tt,
     responded generic_failure
       (logged (console_error "Claude API Error:" e) st)).
Proof.
  intros Hstatus. unfold catch_block, bindM, console_write, lift.
  cbn [fst snd]. now rewrite Hstatus.
Qed.

(** The path into [buildUserContext], for a message that passes the check. *)
Lemma router_post_context_throws `{Host} (w : World)
    (req_body userData e : value) (message : string) (st : State) :
  Get req_body "message" = Normal (VStr message) ->
  message <> "" ->
  Get req_body "userData" = Normal userData ->
  context_at_return (clock w (reads st)) (userData_or_default userData)
  = Throw e ->
  router_post w req_body st = catch_block e (tick st).
Proof.
  intros Hmessage Hnonempty HuserData Hcontext.
  unfold router_post, try_catch, try_block, bindM at 1 2, lift.
  rewrite Hmessage, HuserData.
  assert (negb (truthy (VStr message)) || negb (typeof_is_string (VStr message))
          = false) as ->
    by (destruct message; [now elim Hnonempty | reflexivity]).
  unfold bindM at 1. now rewrite buildUserContext_run, Hcontext.
Qed.

(** The upstream calls on the path through [buildUserContext]. *)
Lemma router_post_calls `{Host} (w : World) (req_body userData : value)
    (message : string) (context : list string) :
  Get req_body "message" = Normal (VStr message) ->
  message <> "" ->
  Get req_body "userData" = Normal userData ->
  context_at_return (clock w 0) (userData_or_default userData)
  = Normal context ->
  calls (snd (router_post w req_body start))
  = [create_params (systemPrompt (String.concat LF context)) (VStr message)].
Proof.
  intros Hmessage Hnonempty HuserData Hcontext.
  rewrite (router_post_reaches_upstream w req_body userData message context
             start Hmessage Hnonempty HuserData Hcontext).
  destruct (create w _ _) as [response|error].
  - rewrite (quiet_try_catch _ _ (quiet_respond w _ response)
               (quiet_catch_block w)).
    reflexivity.
  - rewrite (quiet_catch_block w). reflexivity.
Qed.

(** X2.  When the message passes the check and [buildUserContext] throws,
    whatever the cause, the handler answers with status 500 and the
    generic fallback, logs the error, and makes no upstream call: a
    [userData] that cannot be rendered is not answered with 400. *)
Theorem X2_unrenderable_userData_gives_500 `{Host} (w : World)
    (req_body userData e : value) (message : string) :
  Get req_body "message" = Normal (VStr message) ->
  message <> "" ->
  Get req_body "userData" = Normal userData ->
  context_at_return (clock w 0) (userData_or_default userData) = Throw e ->
  router_post w req_body start
  = (Normal tt,
     {| reads := 1; calls := [];
        console := [console_error "Claude API Error:" e];
        sent := [generic_failure] |}).
Proof.
  intros Hmessage Hnonempty HuserData Hcontext.
  rewrite (router_post_context_throws w req_body userData e message start
             Hmessage Hnonempty HuserData Hcontext).
  rewrite catch_block_without_status; [reflexivity|].
  apply TypeError_has_no_status.
  exact (context_at_return_throws _ _ _ Hcontext).
Qed.

Lemma X2_witness :
  map statusCode
    (sent (snd (@router_post sample_host answering
                  (VObj [("message", VStr "Hello");
                         ("userData", medications_as (VStr "aspirin"))])
                  start)))
  = [500].
Proof.
  rewrite (@X2_unrenderable_userData_gives_500 sample_host answering
             (VObj [("message", VStr "Hello");
                    ("userData", medications_as (VStr "aspirin"))])
             (medications_as (VStr "aspirin"))
             (TypeError "map is not a function") "Hello"
             eq_refl ltac:(discriminate) eq_refl eq_refl).
  reflexivity.
Defined.

(** X3.  The default of [userData] replaces [undefined] only.  With
    [userData] absent the upstream API is called with the date and time
    line as the whole context; with [userData: null] the handler answers
    with status 500 and makes no upstream call. *)
Theorem X3_default_userData_for_undefined_only `{Host} (w : World)
    (req_body : value) (message : string) :
  Get req_body "message" = Normal (VStr message) ->
  message <> "" ->
  (Get req_body "userData" = Normal VUndefined ->
   calls (snd (router_post w req_body start))
   = [create_params (systemPrompt (date_line (clock w 0))) (VStr message)])
  /\ (Get req_body "userData" = Normal VNull ->
      calls (snd (router_post w req_body start)) = []
      /\ sent (snd (router_post w req_body start)) = [generic_failure]).
Proof.
  intros Hmessage Hnonempty. split.
  - intros HuserData.
    exact (router_post_calls w req_body VUndefined message
             [date_line (clock w 0)] Hmessage Hnonempty HuserData eq_refl).
  - intros HuserData.
    rewrite (router_post_context_throws w req_body VNull
               (TypeError "Cannot read properties of null") message start
               Hmessage Hnonempty HuserData eq_refl).
    rewrite catch_block_without_status by reflexivity.
    split; reflexivity.
Qed.

Lemma X3_witness :
  calls (snd (@router_post sample_host answering
                (VObj [("message", VStr "Hello"); ("userData", VNull)]) start))
  = []
  /\ map statusCode
       (sent (snd (@router_post sample_host answering
                     (VObj [("message", VStr "Hello"); ("userData", VNull)])
                     start)))
     = [500].
Proof.
  destruct (proj2 (@X3_default_userData_for_undefined_only sample_host
                     answering
                     (VObj [("message", VStr "Hello"); ("userData", VNull)])
                     "Hello" eq_refl ltac:(discriminate)) eq_refl)
    as [Hcalls Hsent].
  rewrite Hcalls, Hsent. split; reflexivity.
Defined.

(** ** One response for each request *)

Lemma TypeError_catchable (e : value) : is_TypeError e -> catchable e.
Proof. intros He. exists VUndefined. now apply TypeError_has_no_status. Qed.

Lemma mute_lift {A} (c : completion A) :
  (forall e, c = Throw e -> is_TypeError e) -> mute (lift c).
Proof.
  intros Hc st. split; [reflexivity|].
  intros e He. apply TypeError_catchable, Hc. exact He.
Qed.

Lemma mute_bindM {A B} (m : M A) (k : A -> M B) :
  mute m -> (forall a, mute (k a)) -> mute (bindM m k).
Proof.
  intros Hm Hk st. unfold bindM. destruct (Hm st) as [Hsent Hthrown].
  destruct (m st) as [[a|e] st1]; simpl in *.
  - destruct (Hk a st1) as [Hsent' Hthrown']. split; [congruence | exact Hthrown'].
  - split; [exact Hsent|].
    intros e' He'. injection He' as <-. now apply Hthrown.
Qed.

Lemma answers_after_mute {A} (codes : list Z) (m : M A) (k : A -> M unit) :
  mute m -> (forall a, answers_once codes (k a)) ->
  answers_once codes (bindM m k).
Proof.
  intros Hm Hk st. unfold bindM. destruct (Hm st) as [Hsent Hthrown].
  destruct (m st) as [[a|e] st1]; simpl in *.
  - specialize (Hk a st1). destruct (k a st1) as [[u|e] st2].
    + destruct Hk as [r [Hr Hcode]]. exists r. split; [congruence | exact Hcode].
    + destruct Hk as [Hk Hcatch]. split; [congruence | exact Hcatch].
  - split; [exact Hsent | now apply Hthrown].
Qed.

Lemma answers_more_codes (codes codes' : list Z) (m : M unit) :
  incl codes codes' -> answers_once codes m -> answers_once codes' m.
Proof.
  intros Hincl Hm st. specialize (Hm st).
  destruct (m st) as [[u|e] st1]; [|exact Hm].
  destruct Hm as [r [Hr Hcode]]. exists r. split; [exact Hr | now apply Hincl].
Qed.

Section Answers.

Context `{Host} (w : World).

Hypothesis upstream_errors :
  forall k params e, create w k params = Throw e -> catchable e.

Lemma mute_new_Date : mute (new_Date w).
Proof. intros st. split; [reflexivity | discriminate]. Qed.

Lemma mute_console_write o : mute (console_write o).
Proof. intros st. split; [reflexivity | discriminate]. Qed.

Lemma mute_messages_create params : mute (messages_create w params).
Proof.
  intros st. split; [reflexivity|]. simpl. intros e He.
  exact (upstream_errors _ _ _ He).
Qed.

Lemma mute_buildUserContext userData : mute (buildUserContext w userData).
Proof.
  intros st. rewrite buildUserContext_run. split; [reflexivity|].
  cbn [fst]. intros e He. apply TypeError_catchable.
  destruct (context_at_return _ _) eqn:Hcontext; [discriminate|].
  simpl in He. injection He as ->.
  exact (context_at_return_throws _ _ _ Hcontext).
Qed.

Lemma answers_res_status_json code payload :
  answers_once [code] (res_status_json code payload).
Proof.
  intros st. cbn. eexists. split; [reflexivity | now left].
Qed.

Lemma answers_respond message response :
  answers_once [200] (respond w message response).
Proof.
  unfold respond, res_json.
  apply answers_after_mute; [apply mute_lift, Get_throws | intros content].
  apply answers_after_mute; [apply mute_lift, GetIndex_throws | intros first].
  apply answers_after_mute; [apply mute_lift, Get_throws | intros text].
  apply answers_after_mute; [apply mute_lift, ToString_throws | intros message'].
  apply answers_after_mute; [apply mute_console_write | intros _].
  apply answers_after_mute; [apply mute_lift, ToString_throws | intros text'].
  apply answers_after_mute; [apply mute_console_write | intros _].
  apply answers_after_mute; [apply mute_new_Date | intros now].
  apply answers_res_status_json.
Qed.

Lemma answers_try_block req_body :
  answers_once [200; 400] (try_block w req_body).
Proof.
  unfold try_block.
  apply answers_after_mute; [apply mute_lift, Get_throws | intros message].
  apply answers_after_mute; [apply mute_lift, Get_throws | intros userData].
  destruct (negb (truthy message) || negb (typeof_is_string message)).
  - apply (answers_more_codes [400]); [|apply answers_res_status_json].
    intros c [<- | []]. right. now left.
  - apply (answers_more_codes [200]); [intros c [<- | []]; now left|].
    apply answers_after_mute; [apply mute_buildUserContext | intros userContext].
    apply answers_after_mute; [apply mute_messages_create | intros response].
    apply answers_respond.
Qed.

(** The [catch] block answers every error it can read. *)
Lemma catch_block_answers error st :
  catchable error ->
  exists r,
    catch_block error st
    = (Normal tt,
       responded r (logged (console_error "Claude API Error:" error) st))
    /\ In (statusCode r) [429; 500].
Proof.
  intros [status Hstatus]. unfold catch_block, bindM, console_write, lift.
  cbn [fst snd]. rewrite Hstatus.
  destruct (strict_equals_number status 401);
    [|destruct (strict_equals_number status 429)];
    eexists; (split; [reflexivity | cbn; auto]).
Qed.

Lemma router_post_answers_once req_body st :
  exists r st',
    router_post w req_body st = (Normal tt, st')
    /\ sent st' = (sent st ++ [r])%list
    /\ In (statusCode r) [200; 400; 429; 500].
Proof.
  unfold router_post, try_catch.
  pose proof (answers_try_block req_body st) as Htry.
  destruct (try_block w req_body st) as [[[]|e] st1].
  - destruct Htry as [r [Hr Hcode]]. exists r, st1. repeat split; [exact Hr|].
    destruct Hcode as [<- | [<- | []]]; cbn; auto.
  - destruct Htry as [Hsent Hcatch].
    destruct (catch_block_answers e st1 Hcatch) as [r [-> Hcode]].
    exists r. eexists. repeat split.
    + cbn. now rewrite Hsent.
    + destruct Hcode as [<- | [<- | []]]; cbn; auto.
Qed.

End Answers.

(** X5.  As long as the upstream API rejects with errors that can be read
    (neither [null] nor [undefined]), the handler returns normally for
    every body and sends exactly one response, with status 200, 400, 429
    or 500. *)
Theorem X5_exactly_one_response `{Host} (w : World) (req_body : value)
    (st : State) :
  (forall k params e, create w k params = Throw e -> catchable e) ->
  exists r st',
    router_post w req_body st = (Normal tt, st')
    /\ sent st' = (sent st ++ [r])%list
    /\ In (statusCode r) [200; 400; 429; 500].
Proof.
  intros Herrors. exact (router_post_answers_once w Herrors req_body st).
Qed.

Lemma X5_witness :
  exists r st',
    @router_post sample_host (failing (VNum 429))
      (request (VStr "Where are my keys?")) start
    = (Normal tt, st')
    /\ sent st' = [r]
    /\ In (statusCode r) [200; 400; 429; 500].
Proof.
  apply (@X5_exactly_one_response sample_host (failing (VNum 429))
           (request (VStr "Where are my keys?")) start).
  intros k params e He. injection He as <-. now exists (VNum 429).
Defined.

(** ** Replies that cannot be read, errors that are not passed on *)

(** X6.  When the upstream call succeeds but [response.content[0].text]
    cannot be read (no [content], an empty [content], a [null] block), the
    handler answers as for a failure: status 500 with the generic
    fallback, after the one call it made. *)
Theorem X6_unreadable_reply_gives_500 `{Host} (w : World)
    (req_body userData response e : value) (message : string)
    (context : list string) :
  Get req_body "message" = Normal (VStr message) ->
  message <> "" ->
  Get req_body "userData" = Normal userData ->
  context_at_return (clock w 0) (userData_or_default userData)
  = Normal context ->
  let params :=
    create_params (systemPrompt (String.concat LF context)) (VStr message) in
  create w 0 params = Normal response ->
  (content <- Get response "content" ;;
   first <- GetIndex content 0 ;;
   Get first "text")%completion = Throw e ->
  router_post w req_body start
  = (Normal tt,
     {| reads := 1; calls := [params];
        console := [console_error "Claude API Error:" e];
        sent := [generic_failure] |}).
Proof.
  intros Hmessage Hnonempty HuserData Hcontext params Hanswers Hread.
  rewrite (router_post_reaches_upstream w req_body userData message context
             start Hmessage Hnonempty HuserData Hcontext).
  fold params. cbn [calls start List.length]. rewrite Hanswers.
  assert (is_TypeError e) as He by (thrown).
  assert (respond w (VStr message) response (called params (tick start))
          = (Throw e, called params (tick start))) as Hrespond.
  { unfold respond, bindM, lift.
    destruct (Get response "content") as [content|e1]; cbn [bind] in Hread;
      [|congruence].
    destruct (GetIndex content 0) as [first|e2]; cbn [bind] in Hread;
      [|congruence].
    now rewrite Hread. }
  unfold try_catch. rewrite Hrespond.
  rewrite catch_block_without_status by now apply TypeError_has_no_status.
  reflexivity.
Qed.

Lemma X6_witness :
  map statusCode
    (sent (snd (@router_post sample_host
                  (answering_with (VObj [("content", VArr [])]))
                  (request (VStr "Where are my keys?")) start)))
  = [500].
Proof.
  rewrite (@X6_unreadable_reply_gives_500 sample_host
             (answering_with (VObj [("content", VArr [])]))
             (request (VStr "Where are my keys?")) (VObj sample_userData)
             (VObj [("content", VArr [])])
             (TypeError "Cannot read properties of undefined")
             "Where are my keys?" _ eq_refl ltac:(discriminate) eq_refl
             eq_refl eq_refl eq_refl).
  reflexivity.
Defined.

(** X7.  When the first content block has no [text], the handler still
    answers with status 200: [response] is [undefined], and the console
    shows the reply as the text [undefined]. *)
Theorem X7_block_without_text_gives_200 `{Host} (w : World)
    (req_body userData response content first : value) (message : string)
    (context : list string) :
  Get req_body "message" = Normal (VStr message) ->
  message <> "" ->
  Get req_body "userData" = Normal userData ->
  context_at_return (clock w 0) (userData_or_default userData)
  = Normal context ->
  let params :=
    create_params (systemPrompt (String.concat LF context)) (VStr message) in
  create w 0 params = Normal response ->
  Get response "content" = Normal content ->
  GetIndex content 0 = Normal first ->
  Get first "text" = Normal VUndefined ->
  router_post w req_body start
  = (Normal tt,
     {| reads := 2; calls := [params];
        console := [console_log ("User: " ++ message);
                    console_log "Claude: undefined"];
        sent := [{| statusCode := 200;
                    body := VObj [("response", VUndefined);
                                  ("timestamp",
                                   VStr (toISOString (clock w 1)))] |}] |}).
Proof.
  intros Hmessage Hnonempty HuserData Hcontext params Hanswers Hcontent
    Hfirst Htext.
  rewrite (router_post_reaches_upstream w req_body userData message context
             start Hmessage Hnonempty HuserData Hcontext).
  fold params. cbn [calls start List.length]. rewrite Hanswers.
  unfold try_catch, respond, bindM, lift. rewrite Hcontent, Hfirst, Htext.
  reflexivity.
Qed.

Lemma X7_witness :
  map body
    (sent (snd (@router_post sample_host
                  (answering_with
                     (VObj [("content", VArr [VObj [("type", VStr "tool_use")]])]))
                  (request (VStr "Where are my keys?")) start)))
  = [VObj [("response", VUndefined);
           ("timestamp", VStr "2026-11-02T19:09:05.042Z")]].
Proof.
  rewrite (@X7_block_without_text_gives_200 sample_host
             (answering_with
                (VObj [("content", VArr [VObj [("type", VStr "tool_use")]])]))
             (request (VStr "Where are my keys?")) (VObj sample_userData)
             _ _ _ "Where are my keys?" _ eq_refl ltac:(discriminate) eq_refl
             eq_refl eq_refl eq_refl eq_refl eq_refl).
  reflexivity.
Defined.

(** X11.  What the handler sends after an upstream error depends on the
    error's [status] alone: two errors with the same [status] get the same
    response, whatever else they carry. *)
Theorem X11_error_answer_depends_on_status_alone `{Host} (w w' : World)
    (req_body userData error error' status : value) (message : string)
    (context : list string) :
  Get req_body "message" = Normal (VStr message) ->
  message <> "" ->
  Get req_body "userData" = Normal userData ->
  clock w' 0 = clock w 0 ->
  context_at_return (clock w 0) (userData_or_default userData)
  = Normal context ->
  let params :=
    create_params (systemPrompt (String.concat LF context)) (VStr message) in
  create w 0 params = Throw error ->
  create w' 0 params = Throw error' ->
  Get error "status" = Normal status ->
  Get error' "status" = Normal status ->
  sent (snd (router_post w' req_body start))
  = sent (snd (router_post w req_body start)).
Proof.
  intros Hmessage Hnonempty HuserData Hclock Hcontext params Hthrows Hthrows'
    Hstatus Hstatus'.
  rewrite (router_post_reaches_upstream w req_body userData message context
             start Hmessage Hnonempty HuserData Hcontext).
  rewrite <- Hclock in Hcontext.
  rewrite (router_post_reaches_upstream w' req_body userData message context
             start Hmessage Hnonempty HuserData Hcontext).
  fold params. cbn [calls start List.length]. rewrite Hthrows, Hthrows'.
  unfold catch_block, bindM, console_write, lift. cbn [fst snd].
  rewrite Hstatus, Hstatus'.
  destruct (strict_equals_number status 401);
    [|destruct (strict_equals_number status 429)]; reflexivity.
Qed.

Lemma X11_witness :
  sent (snd (@router_post sample_host
               {| clock := fun _ => sample_date;
                  create := fun _ _ =>
                    Throw (VObj [("status", VNum 429);
                                 ("message", VStr "quota exceeded for key sk-1")]) |}
               (request (VStr "Where are my keys?")) start))
  = sent (snd (@router_post sample_host (failing (VNum 429))
                 (request (VStr "Where are my keys?")) start)).
Proof.
  exact (@X11_error_answer_depends_on_status_alone sample_host
           (failing (VNum 429))
           {| clock := fun _ => sample_date;
              create := fun _ _ =>
                Throw (VObj [("status", VNum 429);
                             ("message", VStr "quota exceeded for key sk-1")]) |}
           (request (VStr "Where are my keys?")) (VObj sample_userData)
           _ _ (VNum 429) "Where are my keys?" _
           eq_refl ltac:(discriminate) eq_refl eq_refl eq_refl eq_refl eq_refl
           eq_refl eq_refl).
Defined.

(** ** Texts reach the prompt as they are *)

Lemma append_associative (a b c : string) : ((a ++ b) ++ c = a ++ b ++ c)%string.
Proof.
  induction a as [|x a IH]; simpl; [reflexivity | now rewrite IH].
Qed.

Lemma append_empty (a : string) : (a ++ "" = a)%string.
Proof.
  induction a as [|x a IH]; simpl; [reflexivity | now rewrite IH].
Qed.

Lemma append_within (head before x after tail : string) :
  (head ++ (before ++ x ++ after) ++ tail
   = (head ++ before) ++ x ++ after ++ tail)%string.
Proof. now rewrite !append_associative. Qed.

(** An entry of a joined list stands in the result as it is. *)
Lemma concat_holds_entry (sep x : string) (l : list string) :
  In x l -> exists before after, String.concat sep l = before ++ x ++ after.
Proof.
  induction l as [|a l IH]; [contradiction|].
  intros [-> | Hin].
  - exists "". destruct l as [|b l].
    + exists "". simpl. now rewrite append_empty.
    + exists (sep ++ String.concat sep (b :: l)). reflexivity.
  - destruct l as [|b l]; [contradiction|].
    destruct (IH Hin) as [before [after Hjoined]].
    exists (a ++ sep ++ before), after.
    change (String.concat sep (a :: b :: l))
      with (a ++ sep ++ String.concat sep (b :: l)).
    now rewrite Hjoined, !append_associative.
Qed.

(** X8.  A non-empty [location] text reaches the upstream API unchanged:
    the [system] instructions of the call hold its line, the text at the
    end of it exactly as the client sent it. *)
Theorem X8_location_text_reaches_system_prompt `{Host} (w : World)
    (req_body userData : value) (message location : string)
    (context : list string) :
  Get req_body "message" = Normal (VStr message) ->
  message <> "" ->
  Get req_body "userData" = Normal userData ->
  Get (userData_or_default userData) "location" = Normal (VStr location) ->
  location <> "" ->
  context_at_return (clock w 0) (userData_or_default userData)
  = Normal context ->
  exists params before after,
    calls (snd (router_post w req_body start)) = [params]
    /\ system params = before ++ "User's location: " ++ location ++ after.
Proof.
  intros Hmessage Hnonempty HuserData Hlocation Hfilled Hcontext.
  assert (In ("User's location: " ++ location) context) as Hin.
  { unfold context_at_return in Hcontext.
    apply bind_Normal in Hcontext. destruct Hcontext as [c1 [H1 Hcontext]].
    apply bind_Normal in Hcontext. destruct Hcontext as [c2 [H2 Hcontext]].
    apply bind_Normal in Hcontext. destruct Hcontext as [c3 [H3 Hcontext]].
    apply bind_Normal in Hcontext. destruct Hcontext as [c4 [H4 Hcontext]].
    apply bind_Normal in Hcontext. destruct Hcontext as [c5 [H5 Hcontext]].
    injection Hcontext as <-.
    destruct (push_medications_extends _ _ _ H2) as [e2 ->].
    destruct (push_itemLocations_extends _ _ _ H3) as [e3 ->].
    destruct (push_waterIntake_extends _ _ _ H4) as [e4 ->].
    destruct (push_emergencyContacts_extends _ _ _ H5) as [e5 ->].
    unfold push_location in H1. rewrite Hlocation in H1.
    assert (truthy (VStr location) = true) as Htruthy
      by (destruct location; [now elim Hfilled | reflexivity]).
    cbn [bind] in H1. rewrite Htruthy in H1. cbn [bind ToString] in H1.
    injection H1 as <-.
    do 4 (apply in_or_app; left). unfold push at 1. apply in_or_app. right.
    now left. }
  destruct (concat_holds_entry LF _ _ Hin) as [before [after Hjoined]].
  assert (exists before' after',
             systemPrompt (String.concat LF context)
             = before' ++ "User's location: " ++ location ++ after')
    as [before' [after' Hsystem]].
  { unfold systemPrompt. rewrite Hjoined.
    match goal with
    | |- exists b a, (?head ++ _ ++ ?tail)%string = _ =>
        exists (head ++ before), (after ++ tail)
    end.
    rewrite append_within. reflexivity. }
  exists (create_params (systemPrompt (String.concat LF context))
            (VStr message)), before', after'.
  split.
  - exact (router_post_calls w req_body userData message context
             Hmessage Hnonempty HuserData Hcontext).
  - exact Hsystem.
Qed.

Lemma X8_witness :
  exists params before after,
    calls (snd (@router_post sample_host answering
                  (VObj [("message", VStr "Hello");
                         ("userData", VObj two_line_location)]) start))
    = [params]
    /\ system params
       = before ++ "User's location: "
         ++ ("Kitchen" ++ String "010" "Bedroom") ++ after.
Proof.
  exact (@X8_location_text_reaches_system_prompt sample_host answering
           (VObj [("message", VStr "Hello");
                  ("userData", VObj two_line_location)])
           (VObj two_line_location) "Hello"
           ("Kitchen" ++ String "010" "Bedroom") _
           eq_refl ltac:(discriminate) eq_refl eq_refl ltac:(discriminate)
           eq_refl).
Defined.

(** ** The probe and the handlers of [server.js] *)

(** X9.  As long as the upstream API rejects with errors whose [message]
    can be read, the probe returns normally, has called the upstream API
    exactly once, with a budget of 50 tokens, and has sent exactly one
    response, with status 200 or 500: a reply that cannot be read counts
    as a failure. *)
Theorem X9_probe_answers_200_or_500
    (create : Test.CreateParams -> completion value) :
  (forall e, create Test.params = Throw e ->
             exists message, Get e "message" = Normal message) ->
  fst (Test.router_get create) = Normal tt
  /\ Test.calls (snd (Test.router_get create)) = [Test.params]
  /\ Test.max_tokens Test.params = 50
  /\ exists r,
      Test.sent (snd (Test.router_get create)) = [r]
      /\ (statusCode r = 200 \/ statusCode r = 500).
Proof.
  intros Herrors. unfold Test.router_get.
  destruct (bind (create Test.params) _) as [text|error] eqn:Hrun.
  - repeat split. eexists. split; [reflexivity | now left].
  - assert (exists message, Get error "message" = Normal message)
      as [message ->].
    { apply bind_Throw in Hrun. destruct Hrun as [Hrun | [response [_ Hrun]]].
      - exact (Herrors _ Hrun).
      - assert (is_TypeError error) as [m ->] by thrown.
        eexists. reflexivity. }
    repeat split. eexists. split; [reflexivity | now right].
Qed.

Lemma X9_witness :
  map statusCode
    (Test.sent (snd (Test.router_get (fun _ => Normal (VObj [("content", VArr [])])))))
  = [500].
Proof.
  destruct (X9_probe_answers_200_or_500
              (fun _ => Normal (VObj [("content", VArr [])])))
    as [_ [_ [_ [r [Hsent _]]]]].
  - discriminate.
  - reflexivity.
Defined.

(** X10.  The probe answers every upstream error with status 500,
    whatever [status] the error carries, and passes the error's [message]
    on to the client. *)
Theorem X10_probe_passes_error_message_on
    (create : Test.CreateParams -> completion value) (error message : value) :
  create Test.params = Throw error ->
  Get error "message" = Normal message ->
  Test.sent (snd (Test.router_get create))
  = [{| statusCode := 500;
        body := VObj [("status", VStr "error");
                      ("message", VStr "Claude API test failed");
                      ("error", message)] |}]
  /\ Test.console (snd (Test.router_get create))
     = [console_error "Claude API Test Error:" error].
Proof.
  intros Hthrows Hmessage. unfold Test.router_get.
  rewrite Hthrows. cbn [bind]. rewrite Hmessage. split; reflexivity.
Qed.

Lemma X10_witness :
  map statusCode
    (Test.sent
       (snd (Test.router_get
               (fun _ => Throw (VObj [("status", VNum 429);
                                      ("message", VStr "rate limited")])))))
  = [500].
Proof.
  rewrite (proj1 (X10_probe_passes_error_message_on
                    (fun _ => Throw (VObj [("status", VNum 429);
                                           ("message", VStr "rate limited")]))
                    _ _ eq_refl eq_refl)).
  reflexivity.
Defined.

(** X12.  The error-handling middleware of [server.js] answers with
    status 500 whatever the error carries.  Unless [NODE_ENV] is
    [development] the payload is fixed and nothing of the error is read,
    so that the middleware answers a [null] error too; in [development]
    the payload shows the error's [message], and a [null] error makes the
    middleware throw. *)
Theorem X12_error_middleware (NODE_ENV error : value) :
  (forall r, snd (Server.error_middleware NODE_ENV error) = Normal r ->
             statusCode r = 500)
  /\ (NODE_ENV <> VStr "development" ->
      snd (Server.error_middleware NODE_ENV error)
      = Normal {| statusCode := 500;
                  body := VObj [("error", VStr "Internal server error");
                                ("message", VStr "Something went wrong")] |})
  /\ (NODE_ENV = VStr "development" ->
      (forall message, Get error "message" = Normal message ->
         snd (Server.error_middleware NODE_ENV error)
         = Normal {| statusCode := 500;
                     body := VObj [("error", VStr "Internal server error");
                                   ("message", message)] |})
      /\ (error = VNull -> exists e,
            snd (Server.error_middleware NODE_ENV error) = Throw e)).
Proof.
  unfold Server.error_middleware. cbn [snd]. repeat split.
  - intros r Hrun. apply bind_Normal in Hrun.
    destruct Hrun as [message [_ Hrun]]. now injection Hrun as <-.
  - intros Henv.
    assert (strict_equals_string NODE_ENV "development" = false) as ->.
    { destruct NODE_ENV as [| | | |s| |]; try reflexivity. simpl.
      destruct (String.eqb_spec s "development") as [->|]; [now elim Henv|].
      reflexivity. }
    reflexivity.
  - intros message Hmessage. subst NODE_ENV. simpl. now rewrite Hmessage.
  - intros ->. subst NODE_ENV. eexists. reflexivity.
Qed.

Lemma X12_witness :
  snd (Server.error_middleware (VStr "production") VNull)
  = Normal {| statusCode := 500;
              body := VObj [("error", VStr "Internal server error");
                            ("message", VStr "Something went wrong")] |}.
Proof.
  apply (proj1 (proj2 (X12_error_middleware (VStr "production") VNull))).
  discriminate.
Defined.

(** X13.  The health check answers with status 200, [status] [healthy],
    the uptime it was given, and as [timestamp] the reading [now] of the
    clock as [toISOString] writes it, which is in ISO 8601 format. *)
Theorem X13_health_timestamp (now : Date) (uptime : value) :
  valid_date now ->
  Server.health now uptime
  = {| statusCode := 200;
       body := VObj [("status", VStr "healthy");
                     ("timestamp", VStr (toISOString now));
                     ("uptime", uptime)] |}
  /\ is_ISO8601 (toISOString now) = true.
Proof.
  intros Hvalid.
  split; [reflexivity | now apply toISOString_well_formed].
Qed.

Lemma X13_witness :
  Server.health sample_date (VNum 12)
  = {| statusCode := 200;
       body := VObj [("status", VStr "healthy");
                     ("timestamp", VStr "2026-11-02T19:09:05.042Z");
                     ("uptime", VNum 12)] |}
  /\ is_ISO8601 "2026-11-02T19:09:05.042Z" = true.
Proof.
  apply (X13_health_timestamp sample_date (VNum 12)).
  unfold valid_date. simpl. lia.
Defined.

End Chat.
